(** * main_denoising.py: chunked speech enhancement, embedded and verified

    The orchestrator [main_denoising] of [src/main_denoising.py] is embedded
    as a state-and-exception monad over a small model of the file system.

    - Python exceptions are the [Raise] results of the monad; the state
      survives an exception, as it does in Python.
    - [numpy] matrices are two-dimensional arrays with [numpy]'s broadcasting
      rule; their cells range over a type [cell] with the four operations the
      orchestrator applies ([-], [/], [+], [np.log]).
    - [utils.peak_normalization], [utils.wav2logspec], [utils.logspec2wav]
      and [decode_model.decode_model] are imported by the source but their
      modules are not part of it: they are the fields of the class
      [Imports], over which the orchestrator is parametric.
    - The float [truncate_minutes] is an exact rational: the product
      [truncate_minutes * rate * 60] and the quotient [size / chunk_length]
      are computed without binary64 rounding. *)

From Stdlib Require Import ZArith QArith Reals Lra.
From Stdlib Require Ascii.
From stdpp Require Import gmap strings list pretty infinite.

Local Open Scope Z_scope.

(** ** Python exceptions and results *)

Inductive exn :=
| ZeroDivisionError
| ValueError
| KeyError
| IOError
| UtilsError (code : nat).

Inductive result (A : Type) :=
| Ok (a : A)
| Raise (e : exn).
Arguments Ok {A} a.
Arguments Raise {A} e.

Definition result_bind {A B} (r : result A) (f : A → result B) : result B :=
  match r with
  | Ok a => f a
  | Raise e => Raise e
  end.

(** ** Module constants (lines 31-34) *)

Definition SR : Z := 16000.
Definition WL : Z := 512.
Definition WL2 : Z := WL `div` 2.
Definition NFREQS : nat := 257.

(** ** Characters that a string literal cannot hold *)

Definition dquote : string := String (Ascii.ascii_of_nat 34) EmptyString.
Definition newline : string := String (Ascii.ascii_of_nat 10) EmptyString.
Definition slash : Ascii.ascii := Ascii.ascii_of_nat 47.

(** ** [os.path] *)

Fixpoint basename_go (acc p : string) : string :=
  match p with
  | EmptyString => acc
  | String c r =>
      if Ascii.eqb c slash then basename_go EmptyString r
      else basename_go (acc +:+ String c EmptyString) r
  end.

(** [os.path.basename]: what follows the last slash. *)
Definition os_path_basename (p : string) : string := basename_go EmptyString p.

Fixpoint ends_with_slash (p : string) : bool :=
  match p with
  | EmptyString => false
  | String c EmptyString => Ascii.eqb c slash
  | String _ r => ends_with_slash r
  end.

(** [os.path.join a b] for two components (posixpath). *)
Definition os_path_join (a b : string) : string :=
  match b with
  | String c _ =>
      if Ascii.eqb c slash then b
      else match a with
           | EmptyString => b
           | _ => if ends_with_slash a then a +:+ b
                  else a +:+ String slash b
           end
  | EmptyString =>
      match a with
      | EmptyString => b
      | _ => if ends_with_slash a then a else a +:+ String slash b
      end
  end.

(** ** Python arithmetic of lines 82-92 *)

(** [int(x)] of a float: truncation toward zero. *)
Definition py_int (x : Q) : Z := Z.quot (Qnum x) (Z.pos (Qden x)).

(** [int(math.ceil(n / d))] with true division: [ZeroDivisionError] when the
    divisor is zero. *)
Definition py_ceil_div (n d : Z) : result Z :=
  if d =? 0 then Raise ZeroDivisionError else Ok (- ((- n) `div` d)).

(** Line 82. *)
Definition chunk_length_of (truncate_minutes : Q) (rate : Z) : Z :=
  py_int (truncate_minutes * inject_Z rate * inject_Z 60)%Q.

(** Normalisation of one bound of a slice [a[b:e]] over a sequence of
    length [len]: negative bounds count from the end, all bounds are
    clamped. *)
Definition slice_index (len i : Z) : Z :=
  if i <? 0 then Z.max 0 (i + len) else Z.min i len.

Definition py_slice {A} (l : list A) (b e : Z) : list A :=
  let len := Z.of_nat (length l) in
  let b' := slice_index len b in
  let e' := slice_index len e in
  take (Z.to_nat (e' - b')) (drop (Z.to_nat b') l).

(** Lines 90-92: the samples of chunk [i] (counted from 1). *)
Definition chunk_at {A} (wav_data : list A) (chunk_length i : Z) : list A :=
  let bi := (i - 1) * chunk_length in
  let ei := bi + chunk_length in
  py_slice wav_data bi ei.

(** [np.concatenate] of a list of one-dimensional arrays: [ValueError] on the
    empty list. *)
Definition np_concatenate {A} (arrays : list (list A)) : result (list A) :=
  match arrays with
  | [] => Raise ValueError
  | _ => Ok (concat arrays)
  end.

(** ** numpy matrices with broadcasting *)

Class NumOps (cell : Type) := {
  num_sub : cell → cell → cell;
  num_div : cell → cell → cell;
  num_add : cell → cell → cell;
  num_log : cell → cell }.

Record ndarray (cell : Type) := NdArray {
  shape0 : nat;
  shape1 : nat;
  item : nat → nat → cell }.
Arguments NdArray {cell} shape0 shape1 item.
Arguments shape0 {cell} _.
Arguments shape1 {cell} _.
Arguments item {cell} _ _ _.

(** The broadcast of two extents of one axis. *)
Definition broadcast_dim (a b : nat) : option nat :=
  if (a =? b)%nat then Some a
  else if (a =? 1)%nat then Some b
  else if (b =? 1)%nat then Some a
  else None.

(** The index into an axis of extent [n] that broadcasting reads. *)
Definition bidx (n i : nat) : nat := if (n =? 1)%nat then 0%nat else i.

Definition np_binop {cell} (f : cell → cell → cell) (a b : ndarray cell)
  : result (ndarray cell) :=
  match broadcast_dim (shape0 a) (shape0 b),
        broadcast_dim (shape1 a) (shape1 b) with
  | Some r, Some c =>
      Ok (NdArray r c (λ i j,
            f (item a (bidx (shape0 a) i) (bidx (shape1 a) j))
              (item b (bidx (shape0 b) i) (bidx (shape1 b) j))))
  | _, _ => Raise ValueError
  end.

Definition np_log `{NumOps cell} (a : ndarray cell) : ndarray cell :=
  NdArray (shape0 a) (shape1 a) (λ i j, num_log (item a i j)).

Definition np_sub `{NumOps cell} := np_binop (cell := cell) num_sub.
Definition np_div `{NumOps cell} := np_binop (cell := cell) num_div.
Definition np_add `{NumOps cell} := np_binop (cell := cell) num_add.

(** Line 113: [(noisy_htkdata - mean) / var]. *)
Definition mvn `{NumOps cell} (noisy_htkdata mean var : ndarray cell)
  : result (ndarray cell) :=
  result_bind (np_sub noisy_htkdata mean) (λ d, np_div d var).

(** Line 137: [noisy_htkdata + np.log(irm)]. *)
Definition mask_lps `{NumOps cell} (noisy_htkdata irm : ndarray cell)
  : result (ndarray cell) :=
  np_add noisy_htkdata (np_log irm).

(** The cell of [a] that an elementwise operation reads for the cell
    [(i, j)] of its result: an axis of extent 1 is read at 0. *)
Definition bcell {cell} (a : ndarray cell) (i j : nat) : cell :=
  item a (bidx (shape0 a) i) (bidx (shape1 a) j).

(** ** The file system and the trace of calls *)

Section Orchestrator.

Context {sample cell : Type} `{NumOps cell}.

Inductive file :=
| WavFile (rate : Z) (data : list sample)
| MatFile (vars : list (string * ndarray cell))
| HtkFile (samp_period parm_kind : Z) (data : ndarray cell)
| TextFile (text : string)
| OtherFile.

(** What the orchestrator calls, in call order. [EvDecodeModel] records the
    contents of the scratch directory that the worker process finds. *)
Inductive event :=
| EvMakedirs (d : string)
| EvLoadmat (fn : string)
| EvWavRead (fn : string)
| EvPrint (line : string)
| EvPeakNormalization (wav_data : list sample)
| EvMkdtemp (d : string)
| EvRmtree (d : string)
| EvWav2logspec (temp : list sample)
| EvWriteHtk (fn : string) (data : ndarray cell) (samp_period parm_kind : Z)
| EvWriteText (fn : string) (text : string)
| EvDecodeModel (scp_fn out_dir : string) (nfreqs : nat) (use_gpu : bool)
    (gpu_id : Z) (seen : gmap string file)
| EvLogspec2wav (masked_lps : ndarray cell) (temp : list sample)
| EvWavWrite (fn : string) (rate : Z) (data : list sample).

(** [files]: the regular files outside the scratch directories, by path.
    [dirs]: the directories made by [os.makedirs].
    [scratch]: the live [mkdtemp] directories, each with its files by path.
    [trace]: the calls made so far. *)
Record world := World {
  files : gmap string file;
  dirs : gset string;
  scratch : gmap string (gmap string file);
  trace : list event }.

Definition set_files (f : gmap string file) (w : world) : world :=
  World f (dirs w) (scratch w) (trace w).
Definition set_dirs (d : gset string) (w : world) : world :=
  World (files w) d (scratch w) (trace w).
Definition set_scratch (s : gmap string (gmap string file)) (w : world)
  : world :=
  World (files w) (dirs w) s (trace w).
Definition log_event (e : event) (w : world) : world :=
  World (files w) (dirs w) (scratch w) (trace w ++ [e]).

(** ** The monad: state that survives exceptions *)

Definition M (A : Type) : Type := world → world * result A.

Definition mret {A} (a : A) : M A := λ w, (w, Ok a).
Definition mraise {A} (e : exn) : M A := λ w, (w, Raise e).
Definition mbind {A B} (m : M A) (f : A → M B) : M B := λ w,
  match m w with
  | (w', Ok a) => f a w'
  | (w', Raise e) => (w', Raise e)
  end.
Definition lift {A} (r : result A) : M A := λ w, (w, r).
Definition emit (e : event) : M unit := λ w, (log_event e w, Ok tt).

(** [try: body finally: fin]: [fin] runs on every exit of [body]; the
    exception of [body], if any, is raised again after it. *)
Definition try_finally {A} (body : M A) (fin : M unit) : M A := λ w,
  match body w with
  | (w1, r) =>
      match fin w1 with
      | (w2, Ok _) => (w2, r)
      | (w2, Raise e) => (w2, Raise e)
      end
  end.

Declare Scope py_scope.
Delimit Scope py_scope with py.
Notation "x <- c1 ;; c2" := (mbind c1 (λ x, c2))
  (at level 100, c1 at next level, right associativity) : py_scope.
Notation "c1 ;; c2" := (mbind c1 (λ _, c2))
  (at level 100, right associativity) : py_scope.
Local Open Scope py_scope.

(** A [for] loop whose body updates the accumulator ([data_se.append]). *)
Fixpoint for_acc {A S} (body : S → A → M S) (l : list A) (acc : S) : M S :=
  match l with
  | [] => mret acc
  | x :: rest => acc' <- body acc x ;; for_acc body rest acc'
  end.

Fixpoint for_each {A} (body : A → M unit) (l : list A) : M unit :=
  match l with
  | [] => mret tt
  | x :: rest => body x ;; for_each body rest
  end.

(** ** Library calls *)

Definition print (line : string) : M unit := emit (EvPrint line).

Definition os_path_exists (p : string) : M bool := λ w,
  (w, Ok (bool_decide (p ∈ dirs w) || bool_decide (is_Some (files w !! p))
          || bool_decide (is_Some (scratch w !! p)))).

Definition os_makedirs (d : string) : M unit := λ w,
  (log_event (EvMakedirs d) (set_dirs ({[d]} ∪ dirs w) w), Ok tt).

Definition mat_vars (f : option file) : result (list (string * ndarray cell)) :=
  match f with
  | Some (MatFile vars) => Ok vars
  | Some _ => Raise ValueError
  | None => Raise IOError
  end.

(** [sio.loadmat] of a regular file. *)
Definition sio_loadmat (fn : string) : M (list (string * ndarray cell)) :=
  emit (EvLoadmat fn) ;; λ w, (w, mat_vars (files w !! fn)).

(** [sio.loadmat] of a file of the scratch directory [d]. *)
Definition sio_loadmat_in (d fn : string)
  : M (list (string * ndarray cell)) :=
  emit (EvLoadmat fn) ;; λ w, (w, mat_vars (scratch w !! d ≫= (.!! fn))).

Fixpoint assoc {V} (k : string) (l : list (string * V)) : option V :=
  match l with
  | [] => None
  | (k', v) :: rest => if String.eqb k k' then Some v else assoc k rest
  end.

(** [d[key]] on the dictionary [sio.loadmat] returns. *)
Definition getitem (vars : list (string * ndarray cell)) (key : string)
  : M (ndarray cell) :=
  match assoc key vars with
  | Some a => mret a
  | None => mraise KeyError
  end.

Definition wav_io_read (fn : string) : M (Z * list sample) :=
  emit (EvWavRead fn) ;;
  λ w, (w, match files w !! fn with
           | Some (WavFile rate data) => Ok (rate, data)
           | Some _ => Raise ValueError
           | None => Raise IOError
           end).

Definition wav_io_write (fn : string) (rate : Z) (data : list sample)
  : M unit := λ w,
  (log_event (EvWavWrite fn rate data)
     (set_files (<[fn := WavFile rate data]> (files w)) w), Ok tt).

(** [tempfile.mkdtemp]: a new, empty directory under an unused name. *)
Definition tempfile_mkdtemp : M string := λ w,
  let d := fresh (dom (scratch w)) in
  (log_event (EvMkdtemp d) (set_scratch (<[d := ∅]> (scratch w)) w), Ok d).

(** [shutil.rmtree]: the directory goes with everything in it. *)
Definition shutil_rmtree (d : string) : M unit := λ w,
  match scratch w !! d with
  | Some _ =>
      (log_event (EvRmtree d) (set_scratch (delete d (scratch w)) w), Ok tt)
  | None => (log_event (EvRmtree d) w, Raise IOError)
  end.

(** Writing the file [fn] of the scratch directory [d]. *)
Definition write_in (d fn : string) (f : file) : M unit := λ w,
  match scratch w !! d with
  | Some content =>
      (set_scratch (<[d := <[fn := f]> content]> (scratch w)) w, Ok tt)
  | None => (w, Raise IOError)
  end.

(** Modelled from the spec: [utils.write_htk], which is not in the source:
    it stores the feature matrix behind a header with the sample period
    and the parameter kind. *)
Definition write_htk (d fn : string) (data : ndarray cell)
    (samp_period parm_kind : Z) : M unit :=
  emit (EvWriteHtk fn data samp_period parm_kind) ;;
  write_in d fn (HtkFile samp_period parm_kind data).

(** Lines 121-122: [with open(fn, 'w') as f: f.write(text)]. *)
Definition write_text (d fn text : string) : M unit :=
  emit (EvWriteText fn text) ;;
  write_in d fn (TextFile text).


(** ** The imported functions that the source does not define *)

(** [HERE]: the directory of the script (line 27).
    [peak_normalization], [wav2logspec], [logspec2wav]: the functions of
    [utils], with the fixed Hamming window of length [WL] and the fixed
    [n_per_seg=WL], [noverlap=WL2] of lines 110 and 140-142 built in; any of
    them may raise.
    [decode_model]: the worker process of lines 128-133, given its five
    arguments and the files of the scratch directory it finds; it leaves a
    file at the path of [irm.mat], or nothing (a worker that died). *)
Class Imports := {
  HERE : string;
  peak_normalization : list sample → result (list sample);
  wav2logspec : list sample → result (ndarray cell);
  logspec2wav : ndarray cell → list sample → result (list sample);
  decode_model :
    string → string → nat → bool → Z → gmap string file → option file }.

Context `{Imports}.

Definition utils_peak_normalization (wav_data : list sample)
  : M (list sample) :=
  emit (EvPeakNormalization wav_data) ;; lift (peak_normalization wav_data).

Definition utils_wav2logspec (temp : list sample) : M (ndarray cell) :=
  emit (EvWav2logspec temp) ;; lift (wav2logspec temp).

Definition utils_logspec2wav (masked_lps : ndarray cell) (temp : list sample)
  : M (list sample) :=
  emit (EvLogspec2wav masked_lps temp) ;; lift (logspec2wav masked_lps temp).

(** Lines 128-133: [Process(target=decode_model, args=...)], [start], [join].
    A worker that fails does not raise in the parent. *)
Definition run_decode_model (scp_fn out_dir : string) (nfreqs : nat)
    (use_gpu : bool) (gpu_id : Z) : M unit := λ w,
  let seen := default ∅ (scratch w !! out_dir) in
  let w1 :=
    log_event (EvDecodeModel scp_fn out_dir nfreqs use_gpu gpu_id seen) w in
  match scratch w !! out_dir,
        decode_model scp_fn out_dir nfreqs use_gpu gpu_id seen with
  | Some content, Some f =>
      (set_scratch
         (<[out_dir := <[os_path_join out_dir "irm.mat" := f]> content]>
            (scratch w1)) w1, Ok tt)
  | _, _ => (w1, Ok tt)
  end.

(** ** The strings of lines 74, 93, 122 and 150 *)

Definition GLOBAL_MEAN_VAR_MATF : string :=
  os_path_join (os_path_join HERE "model") "global_mvn_stats.mat".

Definition skip_message (wav : string) : string :=
  "ERROR: Sample rate of file " +:+ dquote +:+ wav +:+ dquote +:+
  " is not " +:+ pretty SR +:+ " Hz. Skipping.".

Definition segment_message (wav : string) (i total_chunks : Z) : string :=
  "Processing file: " +:+ wav +:+ ", segment: " +:+ pretty i +:+ "/" +:+
  pretty total_chunks +:+ ".".

Definition finished_message (wav : string) : string :=
  "Finished processing file " +:+ dquote +:+ wav +:+ dquote +:+ ".".

Definition scp_line (noisy_normed_lps_fn : string) (cntk_len : Z) : string :=
  "irm=" +:+ noisy_normed_lps_fn +:+ "[0," +:+ pretty cntk_len +:+ "]" +:+
  newline.

(** ** [main_denoising], lines 61-150 *)

(** Lines 101-143: the chunk that is long enough. *)
Definition enhance_chunk (tmp_dir : string) (temp : list sample)
    (mean var : ndarray cell) (use_gpu : bool) (gpu_id : Z)
  : M (list sample) :=
  let noisy_normed_lps_fn := os_path_join tmp_dir "noisy_normed_lps.htk" in
  let noisy_normed_lps_scp_fn :=
    os_path_join tmp_dir "noisy_normed_lps.scp" in
  let irm_fn := os_path_join tmp_dir "irm.mat" in
  noisy_htkdata <- utils_wav2logspec temp ;;
  normed_noisy <- lift (mvn noisy_htkdata mean var) ;;
  write_htk tmp_dir noisy_normed_lps_fn normed_noisy SR 9 ;;
  let cntk_len := Z.of_nat (shape0 noisy_htkdata) - 1 in
  write_text tmp_dir noisy_normed_lps_scp_fn
    (scp_line noisy_normed_lps_fn cntk_len) ;;
  run_decode_model noisy_normed_lps_scp_fn tmp_dir NFREQS use_gpu gpu_id ;;
  mat <- sio_loadmat_in tmp_dir irm_fn ;;
  irm <- getitem mat "IRM" ;;
  masked_lps <- lift (mask_lps noisy_htkdata irm) ;;
  utils_logspec2wav masked_lps temp.

(** Lines 89-143: the body of the [try]; it returns the new [data_se]. *)
Definition chunk_try (wav : string) (wav_data : list sample)
    (chunk_length total_chunks : Z) (mean var : ndarray cell)
    (use_gpu : bool) (gpu_id : Z) (tmp_dir : string)
    (data_se : list (list sample)) (i : Z) : M (list (list sample)) :=
  let temp := chunk_at wav_data chunk_length i in
  print (segment_message wav i total_chunks) ;;
  if Z.of_nat (length temp) <? WL2 then
    mret (data_se ++ [temp])
  else
    wave_recon <- enhance_chunk tmp_dir temp mean var use_gpu gpu_id ;;
    mret (data_se ++ [wave_recon]).

(** Lines 87-145: one iteration of the loop over the chunks. *)
Definition chunk_body (wav : string) (wav_data : list sample)
    (chunk_length total_chunks : Z) (mean var : ndarray cell)
    (use_gpu : bool) (gpu_id : Z)
    (data_se : list (list sample)) (i : Z) : M (list (list sample)) :=
  tmp_dir <- tempfile_mkdtemp ;;
  try_finally
    (chunk_try wav wav_data chunk_length total_chunks mean var use_gpu gpu_id
       tmp_dir data_se i)
    (shutil_rmtree tmp_dir).

(** Lines 82-149: the file whose sample rate is [SR]. *)
Definition denoise_file (out_dir : string) (mean var : ndarray cell)
    (use_gpu : bool) (gpu_id : Z) (truncate_minutes : Q)
    (wav : string) (rate : Z) (wav_data : list sample) : M unit :=
  let chunk_length := chunk_length_of truncate_minutes rate in
  total_chunks <-
    lift (py_ceil_div (Z.of_nat (length wav_data)) chunk_length) ;;
  data_se <-
    for_acc
      (chunk_body wav wav_data chunk_length total_chunks mean var use_gpu
         gpu_id)
      (seqZ 1 total_chunks) [] ;;
  data_se <- lift (np_concatenate data_se) ;;
  let bn := os_path_basename wav in
  let output_wav := os_path_join out_dir bn in
  wav_io_write output_wav SR data_se ;;
  print (finished_message wav).

(** Lines 71-150: one iteration of the loop over the files. *)
Definition process_file (out_dir : string) (mean var : ndarray cell)
    (use_gpu : bool) (gpu_id : Z) (truncate_minutes : Q) (wav : string)
  : M unit :=
  rw <- wav_io_read wav ;;
  let rate := rw.1 in
  let wav_data := rw.2 in
  if negb (rate =? SR) then
    print (skip_message wav)
  else
    wav_data <- utils_peak_normalization wav_data ;;
    denoise_file out_dir mean var use_gpu gpu_id truncate_minutes wav rate
      wav_data.

(** Lines 70-150. *)
Definition for_wav_files (out_dir : string) (mean var : ndarray cell)
    (use_gpu : bool) (gpu_id : Z) (truncate_minutes : Q)
    (wav_files : list string) : M unit :=
  for_each (process_file out_dir mean var use_gpu gpu_id truncate_minutes)
    wav_files.

Definition main_denoising (wav_files : list string) (out_dir : string)
    (use_gpu : bool) (gpu_id : Z) (truncate_minutes : Q) : M unit :=
  ex <- os_path_exists out_dir ;;
  (if negb ex then os_makedirs out_dir else mret tt) ;;
  glo_mean_var <- sio_loadmat GLOBAL_MEAN_VAR_MATF ;;
  mean <- getitem glo_mean_var "global_mean" ;;
  var <- getitem glo_mean_var "global_var" ;;
  for_wav_files out_dir mean var use_gpu gpu_id truncate_minutes wav_files.

End Orchestrator.

Arguments file : clear implicits.
Arguments event : clear implicits.
Arguments world : clear implicits.
Arguments Imports : clear implicits.
Arguments M : clear implicits.

(** ** numpy floats: the special values over exact reals

    [np.log] and [+] on float64 cells, without rounding, overflow or signed
    zeros: what is kept is where [-inf], [inf] and [nan] come from. *)

Inductive npfloat :=
| Finite (r : R)
| PosInf
| NegInf
| NaN.

Definition npf_opp (a : npfloat) : npfloat :=
  match a with
  | Finite r => Finite (- r)%R
  | PosInf => NegInf
  | NegInf => PosInf
  | NaN => NaN
  end.

Definition npf_add (a b : npfloat) : npfloat :=
  match a, b with
  | NaN, _ | _, NaN => NaN
  | Finite x, Finite y => Finite (x + y)%R
  | PosInf, NegInf | NegInf, PosInf => NaN
  | PosInf, _ | _, PosInf => PosInf
  | NegInf, _ | _, NegInf => NegInf
  end.

Definition npf_sub (a b : npfloat) : npfloat := npf_add a (npf_opp b).

(** The sign of a real: [1], [0] or [-1]. *)
Definition Rsign (r : R) : Z :=
  if Rlt_dec 0 r then 1 else if Rlt_dec r 0 then -1 else 0.

Definition npf_of_sign (s : Z) : npfloat :=
  if s =? 0 then NaN else if 0 <? s then PosInf else NegInf.

Definition npf_div (a b : npfloat) : npfloat :=
  match a, b with
  | NaN, _ | _, NaN => NaN
  | Finite x, Finite y =>
      if Rsign y =? 0 then npf_of_sign (Rsign x) else Finite (x / y)%R
  | Finite _, _ => Finite 0%R
  | PosInf, Finite y => npf_of_sign (if Rsign y <? 0 then -1 else 1)
  | NegInf, Finite y => npf_of_sign (if Rsign y <? 0 then 1 else -1)
  | _, _ => NaN
  end.

(** [np.log]: [-inf] at zero and [nan] below it (with a warning, not an
    exception). *)
Definition npf_log (a : npfloat) : npfloat :=
  match a with
  | Finite x =>
      if Rlt_dec 0 x then Finite (ln x)
      else if Rlt_dec x 0 then NaN else NegInf
  | PosInf => PosInf
  | NegInf => NaN
  | NaN => NaN
  end.

#[export] Instance npfloat_ops : NumOps npfloat := {
  num_sub := npf_sub;
  num_div := npf_div;
  num_add := npf_add;
  num_log := npf_log }.

(** ** A concrete installation, to run the orchestrator on

    Integer samples, [npfloat] cells; a normalizer that has nothing to scale,
    an all-zero log-power spectrum with one frame per started hop, a
    synthesis that returns the phase source, and a worker that answers the
    feature record it finds with an all-ones mask of the same frame count. *)

Definition demo_frames (n : nat) : nat :=
  Z.to_nat (Z.max 0 ((Z.of_nat n - WL + (WL2 - 1)) `div` WL2) + 1).

Definition demo_worker (scp_fn out_dir : string) (nfreqs : nat)
    (use_gpu : bool) (gpu_id : Z) (seen : gmap string (file Z npfloat))
  : option (file Z npfloat) :=
  match seen !! os_path_join out_dir "noisy_normed_lps.htk" with
  | Some (HtkFile _ _ data) =>
      Some (MatFile
              [("IRM", NdArray (shape0 data) nfreqs (λ _ _, Finite 1%R))])
  | _ => None
  end.

Definition demo_imports : Imports Z npfloat := {|
  HERE := "/opt/denoising";
  peak_normalization := λ wav_data, Ok wav_data;
  wav2logspec := λ temp,
    Ok (NdArray (demo_frames (length temp)) NFREQS (λ _ _, Finite 0%R));
  logspec2wav := λ _ temp, Ok temp;
  decode_model := demo_worker |}.

(** The same installation with a worker that dies before it writes. *)
Definition dead_worker_imports : Imports Z npfloat := {|
  HERE := "/opt/denoising";
  peak_normalization := λ wav_data, Ok wav_data;
  wav2logspec := λ temp,
    Ok (NdArray (demo_frames (length temp)) NFREQS (λ _ _, Finite 0%R));
  logspec2wav := λ _ temp, Ok temp;
  decode_model := λ _ _ _ _ _ _, None |}.

Definition demo_mean : ndarray npfloat := NdArray 1 NFREQS (λ _ _, Finite 0%R).
Definition demo_var : ndarray npfloat := NdArray 1 NFREQS (λ _ _, Finite 1%R).

Definition demo_stats : file Z npfloat :=
  MatFile [("global_mean", demo_mean); ("global_var", demo_var)].

(** 300 samples at 16000 Hz, 4 samples at 8000 Hz, no samples at 16000 Hz,
    4 samples at 16000 Hz. *)
Definition demo_files : gmap string (file Z npfloat) :=
  <["/opt/denoising/model/global_mvn_stats.mat" := demo_stats]>
  (<["in/a.wav" := WavFile 16000 (replicate 300 7)]>
  (<["in/b.wav" := WavFile 8000 [1; 2; 3; 4]]>
  (<["in/c.wav" := WavFile 16000 []]>
  (<["in/s.wav" := WavFile 16000 [1; 2; 3; 4]]> ∅)))).

Definition demo_world : world Z npfloat := World demo_files ∅ ∅ [].

(** The orchestrator on the two installations, with the output directory
    [out], ten minutes per chunk and the statistics above. *)
Definition demo_chunk_body
  : list (list Z) → Z → M Z npfloat (list (list Z)) :=
  @chunk_body Z npfloat npfloat_ops demo_imports "in/a.wav" (replicate 300 7)
    9600000 1 demo_mean demo_var true 0.

Definition demo_process_file : string → M Z npfloat unit :=
  @process_file Z npfloat npfloat_ops demo_imports "out" demo_mean demo_var
    true 0 (10 # 1).

Definition dead_worker_process_file : string → M Z npfloat unit :=
  @process_file Z npfloat npfloat_ops dead_worker_imports "out" demo_mean
    demo_var true 0 (10 # 1).

Definition dead_worker_main (wav_files : list string) : M Z npfloat unit :=
  @main_denoising Z npfloat npfloat_ops dead_worker_imports wav_files "out"
    true 0 (10 # 1).

(** A world without any file, and the files above with a second input of
    the base name [s.wav]. *)
Definition empty_world : world Z npfloat := World ∅ ∅ ∅ [].

Definition demo_world2 : world Z npfloat :=
  World (<["other/s.wav" := WavFile 16000 [5; 6; 7; 8]]> demo_files) ∅ ∅ [].

Definition demo_main (wav_files : list string) : M Z npfloat unit :=
  @main_denoising Z npfloat npfloat_ops demo_imports wav_files "out" true 0
    (10 # 1).

Definition demo_for_wav_files (wav_files : list string) : M Z npfloat unit :=
  @for_wav_files Z npfloat npfloat_ops demo_imports "out" demo_mean demo_var
    true 0 (10 # 1) wav_files.

(** Statistics that change the features: mean 1 and variance 2 in every
    bin. *)
Definition unit_mean : ndarray npfloat :=
  NdArray 1 NFREQS (λ _ _, Finite 1%R).
Definition double_var : ndarray npfloat :=
  NdArray 1 NFREQS (λ _ _, Finite 2%R).

Definition scaled_chunk_body
  : list (list Z) → Z → M Z npfloat (list (list Z)) :=
  @chunk_body Z npfloat npfloat_ops demo_imports "in/a.wav" (replicate 300 7)
    9600000 1 unit_mean double_var true 0.

(** The file of 300 samples in chunks of 256 samples: a chunk that is
    enhanced and a last chunk of 44 samples. *)
Definition two_chunk_process_file : string → M Z npfloat unit :=
  @process_file Z npfloat npfloat_ops demo_imports "out" demo_mean demo_var
    true 0 (1 # 3750).

(** ** The chunks the loop of lines 86-92 visits *)

Definition loop_chunks {A} (wav_data : list A) (truncate_minutes : Q)
    (rate : Z) : result (list (list A)) :=
  let chunk_length := chunk_length_of truncate_minutes rate in
  result_bind (py_ceil_div (Z.of_nat (length wav_data)) chunk_length)
    (λ total_chunks,
       Ok (map (chunk_at wav_data chunk_length) (seqZ 1 total_chunks))).

(** ** Frame ranges of an index record [<label>=<path>[first,last]] *)

(** The form of the record, after the spec's words:
    [<label>=<path>[<first_frame>,<last_frame>]] and the end of the line. *)
Definition index_record (label path : string) (first_frame last_frame : Z)
  : string :=
  label +:+ "=" +:+ path +:+ "[" +:+ pretty first_frame +:+ "," +:+
  pretty last_frame +:+ "]" +:+ newline.

(** The frames of a range whose last bound is excluded, and of one whose
    last bound is included. *)
Definition frames_last_excluded (first last : Z) : list Z :=
  seqZ first (last - first).
Definition frames_last_included (first last : Z) : list Z :=
  seqZ first (last - first + 1).

(** ** Weakest preconditions for the monad *)

Definition wp {sample cell A} (m : M sample cell A)
    (Q : world sample cell → result A → Prop) (w : world sample cell)
  : Prop :=
  Q (m w).1 (m w).2.

(** ** What the processing of one chunk may do

    [chunk_event d e]: [e] is a call that the [try] block of a chunk with
    scratch directory [d] makes, on the paths of [d].
    [stays_in d w w']: from [w] to [w'] only the contents of [d] and the
    trace have changed, and the trace has grown by such calls. *)

Section Frames.

Context {sample cell : Type}.

Definition chunk_event (d : string) (e : event sample cell) : Prop :=
  match e with
  | EvPrint _ | EvWav2logspec _ | EvLogspec2wav _ _ => True
  | EvWriteHtk fn _ _ _ => fn = os_path_join d "noisy_normed_lps.htk"
  | EvWriteText fn _ => fn = os_path_join d "noisy_normed_lps.scp"
  | EvDecodeModel scp_fn out_dir _ _ _ _ =>
      scp_fn = os_path_join d "noisy_normed_lps.scp" ∧ out_dir = d
  | EvLoadmat fn => fn = os_path_join d "irm.mat"
  | _ => False
  end.

Definition stays_in (d : string) (w w' : world sample cell) : Prop :=
  files w' = files w ∧ dirs w' = dirs w ∧
  delete d (scratch w') = delete d (scratch w) ∧
  (is_Some (scratch w !! d) → is_Some (scratch w' !! d)) ∧
  ∃ evs, trace w' = trace w ++ evs ∧ Forall (chunk_event d) evs.

Definition respects (R : world sample cell → world sample cell → Prop)
    {A} (m : M sample cell A) : Prop :=
  ∀ w, wp m (λ w' _, R w w') w.

(** ** The exchange with the worker, for a chunk that is enhanced *)

(** The files the worker finds in the scratch directory [d], made empty by
    [mkdtemp]: the feature record and the index record of lines 117-122. *)
Definition features_seen `{NumOps cell} (d : string)
    (noisy_htkdata normed_noisy : ndarray cell)
  : gmap string (file sample cell) :=
  <[os_path_join d "noisy_normed_lps.scp" :=
      TextFile (scp_line (os_path_join d "noisy_normed_lps.htk")
                  (Z.of_nat (shape0 noisy_htkdata) - 1))]>
  (<[os_path_join d "noisy_normed_lps.htk" := HtkFile SR 9 normed_noisy]> ∅).

(** Line 136 on what the worker left: [sio.loadmat(irm_fn)['IRM']]. *)
Definition loaded_irm (f : option (file sample cell))
  : result (ndarray cell) :=
  result_bind (mat_vars f)
    (λ vars, match assoc "IRM" vars with
             | Some irm => Ok irm
             | None => Raise KeyError
             end).

(** Lines 109-143 as a function: the result of [enhance_chunk] in a scratch
    directory [d] that [mkdtemp] has just made, and the calls it makes. *)
Definition enhance_script `{NumOps cell} `{!Imports sample cell}
    (d : string) (temp : list sample) (mean var : ndarray cell)
    (use_gpu : bool) (gpu_id : Z)
  : result (list sample) * list (event sample cell) :=
  let noisy_normed_lps_fn := os_path_join d "noisy_normed_lps.htk" in
  let noisy_normed_lps_scp_fn := os_path_join d "noisy_normed_lps.scp" in
  match wav2logspec temp with
  | Raise e => (Raise e, [EvWav2logspec temp])
  | Ok noisy_htkdata =>
      match mvn noisy_htkdata mean var with
      | Raise e => (Raise e, [EvWav2logspec temp])
      | Ok normed_noisy =>
          let seen := features_seen d noisy_htkdata normed_noisy in
          let calls :=
            [EvWav2logspec temp;
             EvWriteHtk noisy_normed_lps_fn normed_noisy SR 9;
             EvWriteText noisy_normed_lps_scp_fn
               (scp_line noisy_normed_lps_fn
                  (Z.of_nat (shape0 noisy_htkdata) - 1));
             EvDecodeModel noisy_normed_lps_scp_fn d NFREQS use_gpu gpu_id
               seen;
             EvLoadmat (os_path_join d "irm.mat")] in
          match result_bind
                  (loaded_irm
                     (decode_model noisy_normed_lps_scp_fn d NFREQS use_gpu
                        gpu_id seen))
                  (mask_lps noisy_htkdata) with
          | Raise e => (Raise e, calls)
          | Ok masked_lps =>
              (logspec2wav masked_lps temp,
               calls ++ [EvLogspec2wav masked_lps temp])
          end
      end
  end.

(** Lines 87-145 as a function: the result of one iteration of the loop
    over the chunks, with [d] the name [mkdtemp] picks, and its calls. *)
Definition chunk_script `{NumOps cell} `{!Imports sample cell}
    (d wav : string) (wav_data : list sample) (chunk_length total_chunks : Z)
    (mean var : ndarray cell) (use_gpu : bool) (gpu_id : Z)
    (data_se : list (list sample)) (i : Z)
  : result (list (list sample)) * list (event sample cell) :=
  let temp := chunk_at wav_data chunk_length i in
  let announce := EvPrint (segment_message wav i total_chunks) in
  if Z.of_nat (length temp) <? WL2 then
    (Ok (data_se ++ [temp]), [EvMkdtemp d; announce; EvRmtree d])
  else
    let s := enhance_script d temp mean var use_gpu gpu_id in
    (result_bind s.1 (λ wave_recon, Ok (data_se ++ [wave_recon])),
     EvMkdtemp d :: announce :: s.2 ++ [EvRmtree d]).

(** What a chunk contributes to [data_se]: itself when it is too short,
    a result of [logspec2wav] on it otherwise. *)
Definition chunk_output `{!Imports sample cell} (temp out : list sample)
  : Prop :=
  if Z.of_nat (length temp) <? WL2 then out = temp
  else ∃ masked_lps, logspec2wav masked_lps temp = Ok out.

(** A failure of the predictor on an enhanced chunk [temp] with scratch
    directory [d]: the features were extracted and normalized, and then
    [irm.mat] is missing or is no [.mat] file (line 136, [loadmat]), has no
    variable [IRM] (line 136, the lookup), or holds a matrix that does not
    broadcast against the features (line 137). *)
Definition predictor_fails `{NumOps cell} `{!Imports sample cell}
    (d : string) (temp : list sample) (mean var : ndarray cell)
    (use_gpu : bool) (gpu_id : Z) : Prop :=
  ∃ lps normed_noisy e,
    wav2logspec temp = Ok lps ∧
    mvn lps mean var = Ok normed_noisy ∧
    result_bind
      (loaded_irm
         (decode_model (os_path_join d "noisy_normed_lps.scp") d NFREQS
            use_gpu gpu_id (features_seen d lps normed_noisy)))
      (mask_lps lps) = Raise e.

End Frames.

(** ** Reading a run: paths, statistics and calls *)

Section Readings.

Context {sample cell : Type}.

(** Lines 147-148: where the enhanced waveform of [wav] goes. *)
Definition output_path (out_dir wav : string) : string :=
  os_path_join out_dir (os_path_basename wav).

(** The value of [os.path.exists(p)] in a world (line 61). *)
Definition path_exists (p : string) (w : world sample cell) : bool :=
  bool_decide (p ∈ dirs w) || bool_decide (is_Some (files w !! p))
  || bool_decide (is_Some (scratch w !! p)).

(** The world after lines 61-62. *)
Definition after_makedirs (out_dir : string) (w : world sample cell)
  : world sample cell :=
  if path_exists out_dir w then w
  else log_event (EvMakedirs out_dir) (set_dirs ({[out_dir]} ∪ dirs w) w).

(** Lines 65-67 on the file found at [GLOBAL_MEAN_VAR_MATF]. *)
Definition stats_of (f : option (file sample cell))
  : result (ndarray cell * ndarray cell) :=
  result_bind (mat_vars f)
    (λ vars,
       match assoc "global_mean" vars with
       | None => Raise KeyError
       | Some mean =>
           match assoc "global_var" vars with
           | None => Raise KeyError
           | Some var => Ok (mean, var)
           end
       end).

(** The line a call prints, if it is a [print]. *)
Definition printed (e : event sample cell) : option string :=
  match e with
  | EvPrint line => Some line
  | _ => None
  end.

(** The directory a call starts the worker process in, if it starts it. *)
Definition worker_dir (e : event sample cell) : option string :=
  match e with
  | EvDecodeModel _ out_dir _ _ _ _ => Some out_dir
  | _ => None
  end.

(** The calls of a chunk that is too short (lines 87-99 and 145). *)
Definition short_chunk_calls (d wav : string) (i total_chunks : Z)
  : list (event sample cell) :=
  [EvMkdtemp d; EvPrint (segment_message wav i total_chunks); EvRmtree d].

End Readings.

(** A string without a slash. *)
Fixpoint no_slash (s : string) : bool :=
  match s with
  | EmptyString => true
  | String c r => negb (Ascii.eqb c slash) && no_slash r
  end.

(** * Properties of the arithmetic of lines 82-92 *)

Section Chunking.

Context {A : Type}.
Implicit Types (l : list A) (c k : nat).

Lemma py_slice_nonneg l (b n : Z) :
  0 ≤ b → 0 ≤ n →
  py_slice l b (b + n) = take (Z.to_nat n) (drop (Z.to_nat b) l).
Proof.
  intros Hb Hn. unfold py_slice, slice_index.
  destruct (Z.ltb_spec b 0) as [?|_]; [lia|].
  destruct (Z.ltb_spec (b + n) 0) as [?|_]; [lia|].
  destruct (Z_le_gt_dec (Z.of_nat (length l)) b) as [Hge|Hlt].
  - rewrite !drop_ge by lia. by rewrite !take_nil.
  - rewrite (Z.min_l b) by lia.
    destruct (Z_le_gt_dec (b + n) (Z.of_nat (length l))) as [Hin|Hout].
    + rewrite Z.min_l by lia. f_equal. lia.
    + rewrite Z.min_r by lia.
      rewrite !take_ge; [done| |]; rewrite length_drop; lia.
Qed.

Lemma chunk_at_take_drop l (chunk_length i : Z) :
  0 ≤ chunk_length → 1 ≤ i →
  chunk_at l chunk_length i
  = take (Z.to_nat chunk_length)
      (drop (Z.to_nat (i - 1) * Z.to_nat chunk_length) l).
Proof.
  intros Hc Hi. unfold chunk_at.
  rewrite py_slice_nonneg by nia. do 2 f_equal. nia.
Qed.

Lemma concat_take_drop c k l :
  (length l ≤ k * c)%nat →
  concat (map (λ j, take c (drop (j * c) l)) (seq 0 k)) = l.
Proof.
  revert l. induction k as [|k IH]; intros l Hl.
  - destruct l; [done|simpl in Hl; lia].
  - rewrite <-cons_seq, <-fmap_S_seq. simpl.
    transitivity (take c l ++ drop c l); [|apply take_drop].
    f_equal.
    transitivity
      (concat (map (λ j, take c (drop (j * c) (drop c l))) (seq 0 k))).
    + f_equal. rewrite <-list_fmap_compose. apply map_ext; intros j; simpl.
      rewrite drop_drop. do 2 f_equal; lia.
    + apply IH. rewrite length_drop. lia.
Qed.

Lemma ceil_div_spec (n d : Z) :
  0 < d → (- ((- n) `div` d) - 1) * d < n ≤ - ((- n) `div` d) * d.
Proof.
  intros Hd.
  pose proof (Z.div_mod (- n) d ltac:(lia)) as Hdm.
  pose proof (Z.mod_pos_bound (- n) d Hd) as Hb.
  nia.
Qed.

Lemma seqZ_as_seq (total : Z) :
  seqZ 1 total = (λ j : nat, Z.of_nat j + 1) <$> seq 0 (Z.to_nat total).
Proof.
  unfold seqZ. apply list_fmap_ext; intros _ j _. lia.
Qed.

Lemma chunks_as_take_drop l (chunk_length total : Z) :
  0 ≤ chunk_length →
  map (chunk_at l chunk_length) (seqZ 1 total)
  = map (λ j, take (Z.to_nat chunk_length)
                (drop (j * Z.to_nat chunk_length) l))
      (seq 0 (Z.to_nat total)).
Proof.
  intros Hc. rewrite seqZ_as_seq, <-list_fmap_compose.
  apply map_ext; intros j; simpl.
  rewrite chunk_at_take_drop by lia. do 3 f_equal. lia.
Qed.

Lemma concat_chunks l (chunk_length total : Z) :
  0 ≤ chunk_length → Z.of_nat (length l) ≤ total * chunk_length →
  concat (map (chunk_at l chunk_length) (seqZ 1 total)) = l.
Proof.
  intros Hc Hl. rewrite chunks_as_take_drop by done.
  apply concat_take_drop. nia.
Qed.

Lemma length_chunk_at l (chunk_length i : Z) :
  0 ≤ chunk_length → 1 ≤ i →
  Z.of_nat (length (chunk_at l chunk_length i))
  = Z.max 0 (Z.min chunk_length
               (Z.of_nat (length l) - (i - 1) * chunk_length)).
Proof.
  intros Hc Hi. rewrite chunk_at_take_drop by done.
  rewrite length_take, length_drop. nia.
Qed.

End Chunking.





(** * Lines 113 and 137 under broadcasting *)

Section Broadcasting.

Context {cell : Type} `{NumOps cell}.

Lemma bidx_broadcast_l (a b r i : nat) :
  broadcast_dim a b = Some r → bidx a (bidx r i) = bidx a i.
Proof.
  unfold broadcast_dim, bidx. intros Hr.
  destruct (Nat.eqb_spec a 1) as [->|Ha]; [done|].
  destruct (Nat.eqb_spec a b) as [->|Hab].
  - injection Hr as <-. by destruct (Nat.eqb_spec b 1).
  - destruct (Nat.eqb_spec b 1) as [->|Hb]; [|done].
    injection Hr as <-. by destruct (Nat.eqb_spec a 1).
Qed.

Lemma bidx_broadcast_r (a b r i : nat) :
  broadcast_dim a b = Some r → bidx b (bidx r i) = bidx b i.
Proof.
  unfold broadcast_dim, bidx. intros Hr.
  destruct (Nat.eqb_spec b 1) as [->|Hb]; [done|].
  destruct (Nat.eqb_spec a b) as [->|Hab].
  - injection Hr as <-. by destruct (Nat.eqb_spec b 1).
  - destruct (Nat.eqb_spec a 1) as [->|Ha]; [|done].
    injection Hr as <-. by destruct (Nat.eqb_spec b 1).
Qed.

Lemma bcell_in_range (a : ndarray cell) (i j : nat) :
  (i < shape0 a)%nat → (j < shape1 a)%nat → bcell a i j = item a i j.
Proof.
  intros Hi Hj. unfold bcell, bidx.
  destruct (Nat.eqb_spec (shape0 a) 1), (Nat.eqb_spec (shape1 a) 1);
    f_equal; lia.
Qed.

Lemma bcell_row (a : ndarray cell) (i j : nat) :
  shape0 a = 1%nat → (j < shape1 a)%nat → bcell a i j = item a 0%nat j.
Proof.
  intros Hi Hj. unfold bcell, bidx. rewrite Hi. simpl.
  destruct (Nat.eqb_spec (shape1 a) 1); f_equal; lia.
Qed.

(** Line 137, whatever the shapes: when it does not raise, the shape is the
    broadcast of the two shapes and every cell is the cell of the features
    plus the logarithm of the cell of the mask. *)
Lemma mask_lps_broadcast (lps irm masked : ndarray cell) :
  mask_lps lps irm = Ok masked →
  broadcast_dim (shape0 lps) (shape0 irm) = Some (shape0 masked) ∧
  broadcast_dim (shape1 lps) (shape1 irm) = Some (shape1 masked) ∧
  ∀ i j, item masked i j = num_add (bcell lps i j) (num_log (bcell irm i j)).
Proof.
  unfold mask_lps, np_add, np_binop. simpl.
  destruct (broadcast_dim (shape0 lps) (shape0 irm)) as [r|]; [|done].
  destruct (broadcast_dim (shape1 lps) (shape1 irm)) as [c|]; [|done].
  intros [= <-]. simpl. done.
Qed.

(** Line 113, whatever the shapes: when it does not raise, every cell is
    the cell of the features minus the cell of the mean, over the cell of
    the variance. *)
Lemma mvn_broadcast (lps mean var normed : ndarray cell) :
  mvn lps mean var = Ok normed →
  ∀ i j, item normed i j
         = num_div (num_sub (bcell lps i j) (bcell mean i j)) (bcell var i j).
Proof.
  unfold mvn, np_sub, np_div, np_binop.
  destruct (broadcast_dim (shape0 lps) (shape0 mean)) as [r|] eqn:Hr;
    [|done].
  destruct (broadcast_dim (shape1 lps) (shape1 mean)) as [c|] eqn:Hc;
    [|done].
  simpl.
  destruct (broadcast_dim r (shape0 var)) as [r'|] eqn:Hr'; [|done].
  destruct (broadcast_dim c (shape1 var)) as [c'|] eqn:Hc'; [|done].
  intros [= <-] i j. simpl. unfold bcell.
  rewrite (bidx_broadcast_l _ _ _ _ Hr), (bidx_broadcast_l _ _ _ _ Hc).
  rewrite (bidx_broadcast_r _ _ _ _ Hr), (bidx_broadcast_r _ _ _ _ Hc).
  reflexivity.
Qed.

(** The shape line 113 gives for statistics of one row, as wide as the
    features: the shape of the features. *)
Lemma mvn_shape (lps mean var normed : ndarray cell) :
  mvn lps mean var = Ok normed →
  shape0 mean = 1%nat → shape1 mean = shape1 lps →
  shape0 var = 1%nat → shape1 var = shape1 lps →
  shape0 normed = shape0 lps ∧ shape1 normed = shape1 lps.
Proof.
  unfold mvn, np_sub, np_div, np_binop. intros Hrun Hm0 Hm1 Hv0 Hv1.
  assert (∀ n, broadcast_dim n 1 = Some n) as Hone.
  { intros n. unfold broadcast_dim.
    destruct (Nat.eqb_spec n 1) as [->|]; [done|]. by rewrite Nat.eqb_refl. }
  assert (∀ n, broadcast_dim n n = Some n) as Hsame.
  { intros n. unfold broadcast_dim. by rewrite Nat.eqb_refl. }
  rewrite Hm0, Hm1, Hone, Hsame in Hrun. simpl in Hrun.
  rewrite Hv0, Hv1, Hone, Hsame in Hrun. by injection Hrun as <-.
Qed.

Lemma mask_lps_shape (lps irm masked : ndarray cell) :
  mask_lps lps irm = Ok masked →
  shape0 irm = shape0 lps → shape1 irm = shape1 lps →
  shape0 masked = shape0 lps ∧ shape1 masked = shape1 lps.
Proof.
  intros Hrun H0 H1.
  destruct (mask_lps_broadcast _ _ _ Hrun) as (Hr & Hc & _).
  rewrite H0 in Hr. rewrite H1 in Hc. unfold broadcast_dim in Hr, Hc.
  rewrite Nat.eqb_refl in Hr, Hc. split; congruence.
Qed.

End Broadcasting.

(** * Properties of the orchestrator *)

Section Properties.

Context {sample cell : Type} `{NumOps cell} `{!Imports sample cell}.

Abbreviation world := (world sample cell).
Abbreviation M := (M sample cell).
Abbreviation event := (event sample cell).
Abbreviation file := (file sample cell).

Implicit Types (w : world) (d : string) (temp : list sample).

(** ** Rules of the weakest precondition *)

Lemma wp_mono {A} (m : M A) (Q Q' : world → result A → Prop) w :
  (∀ w' r, Q w' r → Q' w' r) → wp m Q w → wp m Q' w.
Proof. unfold wp. auto. Qed.

Lemma wp_mret {A} (a : A) (Q : world → result A → Prop) w :
  Q w (Ok a) → wp (mret a) Q w.
Proof. done. Qed.

Lemma wp_lift {A} (r : result A) (Q : world → result A → Prop) w :
  Q w r → wp (lift r) Q w.
Proof. done. Qed.

Lemma wp_emit (e : event) (Q : world → result unit → Prop) w :
  Q (log_event e w) (Ok tt) → wp (emit e) Q w.
Proof. done. Qed.

Lemma wp_mbind {A B} (m : M A) (f : A → M B) Q w :
  wp m (λ w1 r, match r with
                | Ok a => wp (f a) Q w1
                | Raise e => Q w1 (Raise e)
                end) w →
  wp (mbind m f) Q w.
Proof. unfold wp, mbind. by destruct (m w) as [w1 [a|e]]. Qed.

(** ** C7: the file at another sample rate *)

(** C7: a file whose sample rate is not [SR] is reported (line 74) and
    skipped: the iteration ends without an exception right after
    [wav_io.read], nothing is normalized or cut into chunks, no file or
    directory changes, and the loop goes on with the files that remain. *)
Theorem wrong_rate_file_skipped (out_dir : string) (mean var : ndarray cell)
    (use_gpu : bool) (gpu_id : Z) (truncate_minutes : Q)
    (wav : string) (rest : list string) w (rate : Z)
    (wav_data : list sample) :
  files w !! wav = Some (WavFile rate wav_data) →
  rate ≠ SR →
  ∃ w',
    process_file out_dir mean var use_gpu gpu_id truncate_minutes wav w
      = (w', Ok tt) ∧
    trace w' = trace w ++ [EvWavRead wav; EvPrint (skip_message wav)] ∧
    files w' = files w ∧ dirs w' = dirs w ∧ scratch w' = scratch w ∧
    for_wav_files out_dir mean var use_gpu gpu_id truncate_minutes
      (wav :: rest) w
    = for_wav_files out_dir mean var use_gpu gpu_id truncate_minutes rest w'.
Proof.
  intros Hfile Hrate.
  assert (process_file out_dir mean var use_gpu gpu_id truncate_minutes wav w
          = (log_event (EvPrint (skip_message wav))
               (log_event (EvWavRead wav) w), Ok tt)) as Hrun.
  { unfold process_file, wav_io_read, mbind, emit, print. simpl.
    rewrite Hfile. simpl.
    destruct (Z.eqb_spec rate SR) as [?|_]; [done|]. done. }
  eexists. split; [exact Hrun|]. split_and!; try done.
  - simpl. by rewrite <-app_assoc.
  - unfold for_wav_files. simpl. unfold mbind at 1. by rewrite Hrun.
Qed.


(** ** Frames: what a chunk leaves untouched *)

Abbreviation keeps d m :=
  (respects (sample := sample) (cell := cell) (stays_in d) m).

Lemma stays_in_refl d w : stays_in d w w.
Proof.
  split_and!; try done. exists []. by rewrite app_nil_r.
Qed.

Lemma stays_in_trans d w1 w2 w3 :
  stays_in d w1 w2 → stays_in d w2 w3 → stays_in d w1 w3.
Proof.
  intros (Hf1 & Hd1 & Hs1 & Hi1 & evs1 & Ht1 & He1)
         (Hf2 & Hd2 & Hs2 & Hi2 & evs2 & Ht2 & He2).
  split_and!; try congruence; [auto|].
  exists (evs1 ++ evs2). split; [|by apply Forall_app].
  by rewrite Ht2, Ht1, app_assoc.
Qed.

Lemma stays_in_log_event d e w :
  chunk_event d e → stays_in d w (log_event e w).
Proof.
  intros He. split_and!; try done. exists [e]. split; [done|]. by constructor.
Qed.

Lemma stays_in_set_scratch d content w :
  stays_in d w (set_scratch (<[d := content]> (scratch w)) w).
Proof.
  split_and!; simpl; try done.
  - by rewrite delete_insert_eq.
  - intros _. rewrite lookup_insert_eq. by eexists.
  - exists []. by rewrite app_nil_r.
Qed.

Lemma respects_mret d {A} (a : A) : keeps d (mret a).
Proof. intros w. apply wp_mret, stays_in_refl. Qed.

Lemma respects_lift d {A} (r : result A) : keeps d (lift r).
Proof. intros w. apply wp_lift, stays_in_refl. Qed.

Lemma respects_mraise d {A} (e : exn) :
  keeps d (mraise (A := A) e).
Proof. intros w. apply stays_in_refl. Qed.

Lemma respects_emit d e : chunk_event d e → keeps d (emit e).
Proof. intros He w. by apply wp_emit, stays_in_log_event. Qed.

Lemma respects_mbind d {A B} (m : M A) (f : A → M B) :
  keeps d m → (∀ a, keeps d (f a)) →
  keeps d (mbind m f).
Proof.
  intros Hm Hf w. apply wp_mbind.
  eapply wp_mono; [|apply Hm]. intros w1 [a|e] H1; simpl; [|done].
  eapply wp_mono; [|apply Hf]. intros w2 r H2; simpl.
  by eapply stays_in_trans.
Qed.

Lemma respects_write_in d fn (f : file) :
  keeps d (write_in d fn f).
Proof.
  intros w. unfold wp, write_in.
  destruct (scratch w !! d); simpl.
  - apply stays_in_set_scratch.
  - apply stays_in_refl.
Qed.

Lemma respects_run_decode_model d nfreqs use_gpu gpu_id :
  keeps d
    (run_decode_model (os_path_join d "noisy_normed_lps.scp") d nfreqs
       use_gpu gpu_id).
Proof.
  intros w. unfold wp, run_decode_model.
  set (ev := EvDecodeModel _ _ _ _ _ _).
  assert (stays_in d w (log_event ev w)) as Hlog
    by by apply stays_in_log_event.
  destruct (scratch w !! d) as [content|]; [|done].
  destruct (decode_model _ _ _ _ _ _); [|done].
  eapply stays_in_trans; [exact Hlog|].
  apply (stays_in_set_scratch d _ (log_event ev w)).
Qed.

Lemma respects_sio_loadmat_in d :
  keeps d (sio_loadmat_in d (os_path_join d "irm.mat")).
Proof.
  apply respects_mbind; [by apply respects_emit|].
  intros _ w. apply stays_in_refl.
Qed.

Lemma respects_getitem d vars key : keeps d (getitem vars key).
Proof.
  unfold getitem. destruct (assoc key vars).
  - apply respects_mret.
  - apply respects_mraise.
Qed.

Lemma respects_enhance_chunk d temp mean var use_gpu gpu_id :
  keeps d (enhance_chunk d temp mean var use_gpu gpu_id).
Proof.
  unfold enhance_chunk, utils_wav2logspec, utils_logspec2wav, write_htk,
    write_text.
  repeat first
    [ apply respects_emit; done
    | apply respects_lift
    | apply respects_write_in
    | apply respects_run_decode_model
    | apply respects_sio_loadmat_in
    | apply respects_getitem
    | apply respects_mbind; [|intros ?] ].
Qed.


(** ** C8: the scratch directory of a chunk *)



(** ** Paths inside a scratch directory *)

Lemma append_slash (a b : string) :
  (a +:+ String slash EmptyString) +:+ b = a +:+ String slash b.
Proof.
  induction a as [|c a IH]; [reflexivity|].
  change (String c ((a +:+ String slash EmptyString) +:+ b)
          = String c (a +:+ String slash b)).
  by rewrite IH.
Qed.

Lemma os_path_join_relative d (c : Ascii.ascii) (b : string) :
  Ascii.eqb c slash = false →
  os_path_join d (String c b)
  = match d with
    | EmptyString => EmptyString
    | _ => if ends_with_slash d then d else d +:+ String slash EmptyString
    end +:+ String c b.
Proof.
  intros Hc. unfold os_path_join. rewrite Hc.
  destruct d as [|c' d']; [done|].
  destruct (ends_with_slash (String c' d')); [done|].
  by rewrite append_slash.
Qed.

Lemma scratch_paths_distinct d :
  os_path_join d "noisy_normed_lps.htk" ≠ os_path_join d "noisy_normed_lps.scp"
  ∧ os_path_join d "irm.mat" ≠ os_path_join d "noisy_normed_lps.htk"
  ∧ os_path_join d "irm.mat" ≠ os_path_join d "noisy_normed_lps.scp".
Proof.
  split_and!; rewrite !os_path_join_relative by done;
    intros Heq; apply (inj (String.append _)) in Heq; discriminate.
Qed.


(** ** The chunk that is enhanced, call by call *)

Local Arguments os_path_join : simpl never.
Local Arguments scp_line : simpl never.

Lemma enhance_chunk_script d temp mean var use_gpu gpu_id w :
  scratch w !! d = Some ∅ →
  ∃ w',
    enhance_chunk d temp mean var use_gpu gpu_id w
      = (w', (enhance_script d temp mean var use_gpu gpu_id).1) ∧
    trace w'
      = trace w ++ (enhance_script d temp mean var use_gpu gpu_id).2.
Proof.
  intros Hd. destruct (scratch_paths_distinct d) as (Hhs & Hih & His).
  unfold enhance_chunk, enhance_script, features_seen, run_decode_model.
  set (htk := os_path_join d "noisy_normed_lps.htk") in *.
  set (scp := os_path_join d "noisy_normed_lps.scp") in *.
  set (irm_fn := os_path_join d "irm.mat") in *.
  clearbody htk scp irm_fn.
  unfold utils_wav2logspec, utils_logspec2wav, write_htk, write_text,
    sio_loadmat_in, write_in, mbind, emit, lift.
  simpl.
  destruct (wav2logspec temp) as [lps|e]; [|by eexists].
  destruct (mvn lps mean var) as [normed|e]; [|by eexists].
  simpl. rewrite Hd. simpl. repeat (rewrite lookup_insert_eq; simpl).
  set (seen := <[scp := _]> (<[htk := _]> ∅)).
  unfold loaded_irm.
  assert (seen !! irm_fn = None) as Hnone.
  { subst seen. by rewrite !lookup_insert_ne, lookup_empty by done. }
  destruct (decode_model scp d NFREQS use_gpu gpu_id seen)
    as [[rate data|vars|sp pk data|text|]|];
    simpl; repeat (rewrite lookup_insert_eq; simpl); rewrite ?Hnone; simpl;
    try (eexists; split; [done|]; simpl; by rewrite <-!app_assoc).
  unfold getitem.
  destruct (assoc "IRM" vars) as [irm|]; simpl;
    [|eexists; split; [done|]; simpl; by rewrite <-!app_assoc].
  destruct (mask_lps lps irm) as [masked|e]; simpl;
    eexists; (split; [done|]); simpl; by rewrite <-!app_assoc.
Qed.


Lemma chunk_body_script wav wav_data chunk_length total_chunks mean var
    use_gpu gpu_id data_se i w :
  let d := fresh (dom (scratch w)) in
  let s := chunk_script d wav wav_data chunk_length total_chunks mean var
             use_gpu gpu_id data_se i in
  ∃ w',
    chunk_body wav wav_data chunk_length total_chunks mean var use_gpu gpu_id
      data_se i w = (w', s.1) ∧
    trace w' = trace w ++ s.2 ∧
    scratch w' = scratch w ∧ files w' = files w ∧ dirs w' = dirs w.
Proof.
  intros d s.
  assert (scratch w !! d = None) as Hfresh
    by apply not_elem_of_dom, is_fresh.
  set (w1 := log_event (EvPrint (segment_message wav i total_chunks))
               (log_event (EvMkdtemp d)
                  (set_scratch (<[d := ∅]> (scratch w)) w))).
  assert (scratch w1 !! d = Some ∅) as Hd1
    by (subst w1; simpl; apply lookup_insert_eq).
  assert (delete d (scratch w1) = scratch w) as Hdel.
  { subst w1. simpl. rewrite delete_insert_eq. by apply delete_id. }
  subst s. unfold chunk_body, chunk_script, tempfile_mkdtemp, try_finally,
    chunk_try, print, mbind, emit. fold d. simpl. fold w1.
  destruct (Z.of_nat (length (chunk_at wav_data chunk_length i)) <? WL2).
  - unfold mret, shutil_rmtree. rewrite Hd1. eexists. split; [done|].
    simpl. split_and!; try done. by rewrite <-!app_assoc.
  - set (temp := chunk_at wav_data chunk_length i).
    destruct (enhance_chunk_script d temp mean var use_gpu gpu_id w1 Hd1)
      as (w2 & Hrun & Htrace).
    pose proof (respects_enhance_chunk d temp mean var use_gpu gpu_id w1)
      as Hstay.
    unfold wp in Hstay. rewrite Hrun in Hstay. simpl in Hstay.
    destruct Hstay as (Hf & Hdirs & Hs & [content Hc] & _); [by eexists|].
    rewrite Hrun. unfold shutil_rmtree.
    destruct (enhance_script d temp mean var use_gpu gpu_id) as [[out|e] evs];
      simpl in *; rewrite Hc; (eexists; split; [done|]); simpl;
      (split_and!; [|congruence|by rewrite Hf|by rewrite Hdirs]);
      rewrite Htrace; subst w1; simpl; by rewrite <-!app_assoc.
Qed.


(** ** C1 and C9: what the worker is given and what is masked *)

Lemma chunk_body_events wav wav_data chunk_length total_chunks mean var
    use_gpu gpu_id data_se i w w' r evs :
  chunk_body wav wav_data chunk_length total_chunks mean var use_gpu gpu_id
    data_se i w = (w', r) →
  trace w' = trace w ++ evs →
  let d := fresh (dom (scratch w)) in
  let temp := chunk_at wav_data chunk_length i in
  let announce := EvPrint (segment_message wav i total_chunks) in
  evs = [EvMkdtemp d; announce; EvRmtree d] ∨
  evs = EvMkdtemp d :: announce
          :: (enhance_script d temp mean var use_gpu gpu_id).2
          ++ [EvRmtree d].
Proof.
  intros Hrun Htrace d temp announce.
  destruct (chunk_body_script wav wav_data chunk_length total_chunks mean var
    use_gpu gpu_id data_se i w) as (w'' & Hrun' & Htrace' & _).
  rewrite Hrun in Hrun'. injection Hrun' as <- _.
  rewrite Htrace in Htrace'. apply (inj (app _)) in Htrace' as ->.
  unfold chunk_script. fold d temp announce. case_match; auto.
Qed.

(** Which matrices the worker and the synthesis are given: the feature
    record holds the result of line 113 on [wav2logspec(temp)], the
    synthesis gets the result of line 137 on that same matrix and the [IRM]
    loaded from what the worker left. *)
Lemma chunk_body_exchange (wav : string)
    (wav_data : list sample) (chunk_length total_chunks : Z)
    (mean var : ndarray cell) (use_gpu : bool) (gpu_id : Z)
    (data_se : list (list sample)) (i : Z) w w' r evs :
  chunk_body wav wav_data chunk_length total_chunks mean var use_gpu gpu_id
    data_se i w = (w', r) →
  trace w' = trace w ++ evs →
  let temp := chunk_at wav_data chunk_length i in
  (∀ scp_fn out_dir nfreqs g id seen,
     EvDecodeModel scp_fn out_dir nfreqs g id seen ∈ evs →
     ∃ lps normed_noisy,
       wav2logspec temp = Ok lps ∧
       mvn lps mean var = Ok normed_noisy ∧
       seen !! os_path_join out_dir "noisy_normed_lps.htk"
         = Some (HtkFile SR 9 normed_noisy)) ∧
  (∀ masked_lps temp',
     EvLogspec2wav masked_lps temp' ∈ evs →
     temp' = temp ∧
     ∃ lps scp_fn out_dir seen irm,
       wav2logspec temp = Ok lps ∧
       EvDecodeModel scp_fn out_dir NFREQS use_gpu gpu_id seen ∈ evs ∧
       loaded_irm (decode_model scp_fn out_dir NFREQS use_gpu gpu_id seen)
         = Ok irm ∧
       mask_lps lps irm = Ok masked_lps).
Proof.
  intros Hrun Htrace temp.
  destruct (chunk_body_events _ _ _ _ _ _ _ _ _ _ _ _ _ _ Hrun Htrace)
    as [->| ->].
  { split; intros; repeat
      match goal with
      | Hin : _ ∈ _ :: _ |- _ => apply elem_of_cons in Hin as [?|Hin]
      | Hin : _ ∈ [] |- _ => by apply elem_of_nil in Hin
      end; discriminate. }
  fold temp. set (d := fresh (dom (scratch w))).
  destruct (scratch_paths_distinct d) as (Hhs & _).
  unfold enhance_script.
  destruct (wav2logspec temp) as [lps|e] eqn:Hlps; simpl.
  2:{ split; intros; repeat
      match goal with
      | Hin : _ ∈ _ :: _ |- _ => apply elem_of_cons in Hin as [?|Hin]
      | Hin : _ ∈ [] |- _ => by apply elem_of_nil in Hin
      end; discriminate. }
  destruct (mvn lps mean var) as [normed|e] eqn:Hmvn; simpl.
  2:{ split; intros; repeat
      match goal with
      | Hin : _ ∈ _ :: _ |- _ => apply elem_of_cons in Hin as [?|Hin]
      | Hin : _ ∈ [] |- _ => by apply elem_of_nil in Hin
      end; discriminate. }
  set (scp := os_path_join d "noisy_normed_lps.scp").
  set (seen := features_seen d lps normed).
  destruct (loaded_irm (decode_model scp d NFREQS use_gpu gpu_id seen))
    as [irm|e] eqn:Hirm; simpl;
    [destruct (mask_lps lps irm) as [masked|e] eqn:Hmask; simpl|].
  all: split; intros; repeat
      match goal with
      | Hin : _ ∈ _ :: _ |- _ => apply elem_of_cons in Hin as [?|Hin]
      | Hin : _ ∈ _ ++ _ |- _ => apply elem_of_app in Hin as [Hin|Hin]
      | Hin : _ ∈ [] |- _ => by apply elem_of_nil in Hin
      end; try discriminate; simplify_eq.
  all: try (exists lps, normed; split_and!; [done|done|];
            subst seen scp; unfold features_seen;
            rewrite lookup_insert_ne by (by apply not_eq_sym);
            by rewrite lookup_insert_eq).
  split; [done|]. exists lps, scp, d, seen, irm.
  split_and!; try done. set_solver.
Qed.

(** C1: whenever the iteration of a chunk [temp] starts the worker, the
    feature record the worker finds holds [(lps - mean) / var] for
    [lps = wav2logspec(temp)] (line 113): every cell is the cell of [lps]
    minus the cell of the mean, over the cell of the variance, and for
    statistics of one row as wide as the features that is, frame by frame
    and bin by bin, [(lps[t, f] - mean[0, f]) / var[0, f]]. Whenever the
    iteration calls the synthesis, the matrix it passes is
    [lps + log(IRM)] (line 137) for that same, unnormalized [lps] and the
    [IRM] loaded from what the worker left: every cell is the cell of [lps]
    plus the logarithm of the cell of the mask, and for a mask of the shape
    of the features that is [lps[t, f] + log(IRM[t, f])]. *)
Theorem features_normalized_mask_on_raw_lps (wav : string)
    (wav_data : list sample) (chunk_length total_chunks : Z)
    (mean var : ndarray cell) (use_gpu : bool) (gpu_id : Z)
    (data_se : list (list sample)) (i : Z) w w' r evs :
  chunk_body wav wav_data chunk_length total_chunks mean var use_gpu gpu_id
    data_se i w = (w', r) →
  trace w' = trace w ++ evs →
  let temp := chunk_at wav_data chunk_length i in
  (∀ scp_fn out_dir nfreqs g id seen,
     EvDecodeModel scp_fn out_dir nfreqs g id seen ∈ evs →
     ∃ lps normed_noisy,
       wav2logspec temp = Ok lps ∧
       seen !! os_path_join out_dir "noisy_normed_lps.htk"
         = Some (HtkFile SR 9 normed_noisy) ∧
       mvn lps mean var = Ok normed_noisy ∧
       (∀ t f, item normed_noisy t f
               = num_div (num_sub (bcell lps t f) (bcell mean t f))
                   (bcell var t f)) ∧
       (shape0 mean = 1%nat → shape1 mean = shape1 lps →
        shape0 var = 1%nat → shape1 var = shape1 lps →
        shape0 normed_noisy = shape0 lps ∧
        shape1 normed_noisy = shape1 lps ∧
        ∀ t f, (t < shape0 lps)%nat → (f < shape1 lps)%nat →
          item normed_noisy t f
          = num_div (num_sub (item lps t f) (item mean 0%nat f))
              (item var 0%nat f))) ∧
  (∀ masked_lps temp',
     EvLogspec2wav masked_lps temp' ∈ evs →
     temp' = temp ∧
     ∃ lps scp_fn out_dir seen irm,
       wav2logspec temp = Ok lps ∧
       EvDecodeModel scp_fn out_dir NFREQS use_gpu gpu_id seen ∈ evs ∧
       loaded_irm (decode_model scp_fn out_dir NFREQS use_gpu gpu_id seen)
         = Ok irm ∧
       mask_lps lps irm = Ok masked_lps ∧
       (∀ t f, item masked_lps t f
               = num_add (bcell lps t f) (num_log (bcell irm t f))) ∧
       (shape0 irm = shape0 lps → shape1 irm = shape1 lps →
        shape0 masked_lps = shape0 lps ∧
        shape1 masked_lps = shape1 lps ∧
        ∀ t f, (t < shape0 lps)%nat → (f < shape1 lps)%nat →
          item masked_lps t f
          = num_add (item lps t f) (num_log (item irm t f)))).
Proof.
  intros Hrun Htrace temp.
  destruct (chunk_body_exchange _ _ _ _ _ _ _ _ _ _ _ _ _ _ Hrun Htrace)
    as [Hworker Hsynthesis].
  split.
  - intros scp_fn out_dir nfreqs g id seen Hin.
    destruct (Hworker _ _ _ _ _ _ Hin) as (lps & normed & Hlps & Hmvn & Hsee).
    exists lps, normed. split_and!; [done|done|done| |].
    + by apply mvn_broadcast.
    + intros Hm0 Hm1 Hv0 Hv1.
      destruct (mvn_shape _ _ _ _ Hmvn Hm0 Hm1 Hv0 Hv1) as [Hs0 Hs1].
      split_and!; [done|done|]. intros t f Ht Hf.
      rewrite (mvn_broadcast _ _ _ _ Hmvn).
      rewrite bcell_in_range, !bcell_row by (done || lia). reflexivity.
  - intros masked_lps temp' Hin.
    destruct (Hsynthesis _ _ Hin)
      as (-> & lps & scp_fn & out_dir & seen & irm & Hlps & Hw & Hirm & Hm).
    split; [done|]. exists lps, scp_fn, out_dir, seen, irm.
    destruct (mask_lps_broadcast _ _ _ Hm) as (_ & _ & Hcells).
    split_and!; [done|done|done|done|done|].
    intros H0 H1. destruct (mask_lps_shape _ _ _ Hm H0 H1) as [Hs0 Hs1].
    split_and!; [done|done|]. intros t f Ht Hf.
    rewrite Hcells, !bcell_in_range by (done || lia). reflexivity.
Qed.


Lemma scp_line_index_record (fn : string) (cntk_len : Z) :
  scp_line fn cntk_len = index_record "irm" fn 0 cntk_len.
Proof. reflexivity. Qed.

(** C9, as amended: the index record the worker finds is the one line
    [irm=<path>[0,<frame_count - 1>]], where [<path>] is the path of the
    feature record in the same scratch directory and [frame_count] the
    number of rows of [wav2logspec(temp)]; the last frame it names is
    included in the range, which is how it covers frames [0] to
    [frame_count - 1], all of them. *)
Theorem index_record_names_all_frames (wav : string)
    (wav_data : list sample) (chunk_length total_chunks : Z)
    (mean var : ndarray cell) (use_gpu : bool) (gpu_id : Z)
    (data_se : list (list sample)) (i : Z) w w' r evs :
  chunk_body wav wav_data chunk_length total_chunks mean var use_gpu gpu_id
    data_se i w = (w', r) →
  trace w' = trace w ++ evs →
  ∀ scp_fn out_dir nfreqs g id seen,
    EvDecodeModel scp_fn out_dir nfreqs g id seen ∈ evs →
    ∃ lps,
      wav2logspec (chunk_at wav_data chunk_length i) = Ok lps ∧
      let frame_count := Z.of_nat (shape0 lps) in
      let path := os_path_join out_dir "noisy_normed_lps.htk" in
      scp_fn = os_path_join out_dir "noisy_normed_lps.scp" ∧
      seen !! scp_fn
        = Some (TextFile (index_record "irm" path 0 (frame_count - 1))) ∧
      is_Some (seen !! path) ∧
      frames_last_included 0 (frame_count - 1) = seqZ 0 frame_count.
Proof.
  intros Hrun Htrace scp_fn out_dir nfreqs g id seen Hin.
  destruct (chunk_body_events _ _ _ _ _ _ _ _ _ _ _ _ _ _ Hrun Htrace)
    as [->| ->].
  { repeat
      match goal with
      | Hin : _ ∈ _ :: _ |- _ => apply elem_of_cons in Hin as [?|Hin]
      | Hin : _ ∈ [] |- _ => by apply elem_of_nil in Hin
      end; discriminate. }
  set (d := fresh (dom (scratch w))) in *.
  set (temp := chunk_at wav_data chunk_length i) in *.
  destruct (scratch_paths_distinct d) as (Hhs & _).
  unfold enhance_script in Hin.
  destruct (wav2logspec temp) as [lps|e] eqn:Hlps; simpl in Hin.
  2:{ repeat
      match goal with
      | Hin : _ ∈ _ :: _ |- _ => apply elem_of_cons in Hin as [?|Hin]
      | Hin : _ ∈ [] |- _ => by apply elem_of_nil in Hin
      end; discriminate. }
  destruct (mvn lps mean var) as [normed|e] eqn:Hmvn; simpl in Hin.
  2:{ repeat
      match goal with
      | Hin : _ ∈ _ :: _ |- _ => apply elem_of_cons in Hin as [?|Hin]
      | Hin : _ ∈ [] |- _ => by apply elem_of_nil in Hin
      end; discriminate. }
  assert (EvDecodeModel scp_fn out_dir nfreqs g id seen
          = EvDecodeModel (os_path_join d "noisy_normed_lps.scp") d NFREQS
              use_gpu gpu_id (features_seen d lps normed)) as Heq.
  { destruct (result_bind _ _) in Hin; simpl in Hin; repeat
      match goal with
      | Hin : _ ∈ _ :: _ |- _ => apply elem_of_cons in Hin as [?|Hin]
      | Hin : _ ∈ _ ++ _ |- _ => apply elem_of_app in Hin as [Hin|Hin]
      | Hin : _ ∈ [] |- _ => by apply elem_of_nil in Hin
      end; try discriminate; done. }
  injection Heq as -> -> -> -> -> ->.
  exists lps. split; [done|]. simpl. split_and!.
  - done.
  - unfold features_seen. rewrite lookup_insert_eq.
    by rewrite scp_line_index_record.
  - unfold features_seen.
    rewrite lookup_insert_ne by (by apply not_eq_sym).
    rewrite lookup_insert_eq. by eexists.
  - unfold frames_last_included. f_equal. lia.
Qed.


(** ** The loop over the chunks and the file as a whole *)

Lemma enhance_script_output d temp mean var use_gpu gpu_id out :
  (enhance_script d temp mean var use_gpu gpu_id).1 = Ok out →
  ∃ masked_lps, logspec2wav masked_lps temp = Ok out.
Proof.
  unfold enhance_script.
  destruct (wav2logspec temp) as [lps|e]; [|done].
  destruct (mvn lps mean var) as [normed|e]; [|done].
  destruct (result_bind _ _) as [masked|e]; [|done].
  simpl. eauto.
Qed.

Lemma chunk_body_step wav wav_data chunk_length total_chunks mean var
    use_gpu gpu_id data_se i w w' r :
  chunk_body wav wav_data chunk_length total_chunks mean var use_gpu gpu_id
    data_se i w = (w', r) →
  scratch w' = scratch w ∧ files w' = files w ∧ dirs w' = dirs w ∧
  match r with
  | Ok data_se' =>
      ∃ out, data_se' = data_se ++ [out] ∧
             chunk_output (chunk_at wav_data chunk_length i) out
  | Raise _ => True
  end.
Proof.
  intros Hrun.
  destruct (chunk_body_script wav wav_data chunk_length total_chunks mean var
    use_gpu gpu_id data_se i w) as (w'' & Hrun' & _ & Hs & Hf & Hd).
  rewrite Hrun in Hrun'. injection Hrun' as <- ->.
  split_and!; try done.
  unfold chunk_script, chunk_output.
  destruct (Z.of_nat (length (chunk_at wav_data chunk_length i)) <? WL2).
  - simpl. eauto.
  - simpl.
    destruct (enhance_script _ _ _ _ _ _).1 as [out|e] eqn:Hout; [|done].
    simpl. exists out. split; [done|]. by eapply enhance_script_output.
Qed.

Lemma for_acc_chunks wav wav_data chunk_length total_chunks mean var
    use_gpu gpu_id idx data_se w w' r :
  for_acc
    (chunk_body wav wav_data chunk_length total_chunks mean var use_gpu
       gpu_id) idx data_se w = (w', r) →
  scratch w' = scratch w ∧ files w' = files w ∧ dirs w' = dirs w ∧
  match r with
  | Ok data_se' =>
      ∃ outs, data_se' = data_se ++ outs ∧
              Forall2 chunk_output (map (chunk_at wav_data chunk_length) idx)
                outs
  | Raise _ => True
  end.
Proof.
  revert data_se w. induction idx as [|i idx IH]; intros data_se w; simpl.
  - intros [= <- <-]. split_and!; try done.
    exists []. by rewrite app_nil_r.
  - unfold mbind.
    destruct (chunk_body _ _ _ _ _ _ _ _ data_se i w) as [w1 r1] eqn:Hstep.
    apply chunk_body_step in Hstep as (Hs1 & Hf1 & Hd1 & Hr1).
    destruct r1 as [data_se1|e].
    + intros Hrest. apply IH in Hrest as (Hs & Hf & Hd & Hr).
      split_and!; try congruence.
      destruct r as [data_se'|]; [|done].
      destruct Hr1 as (out & -> & Hout). destruct Hr as (outs & -> & Houts).
      exists (out :: outs). split; [by rewrite <-app_assoc|].
      by constructor.
    + by intros [= <- <-].
Qed.

Lemma ceil_div_positive (n d total : Z) :
  0 ≤ n → py_ceil_div n d = Ok total → 1 ≤ total → 1 ≤ d.
Proof.
  unfold py_ceil_div. intros Hn.
  destruct (Z.eqb_spec d 0) as [|Hd]; [done|]. intros [= <-] Htotal.
  destruct (Z_lt_le_dec d 0) as [Hneg|]; [|lia].
  pose proof (Z.div_opp_opp n (- d) ltac:(lia)) as Hopp.
  rewrite Z.opp_involutive in Hopp.
  pose proof (Z.div_pos n (- d) Hn ltac:(lia)). lia.
Qed.

Lemma Forall2_chunk_output_length chunks outs :
  (∀ masked_lps temp out,
     logspec2wav masked_lps temp = Ok out → length out = length temp) →
  Forall2 chunk_output chunks outs →
  Forall2 (λ chunk out : list sample, length out = length chunk) chunks outs.
Proof.
  intros Hsynth Hout. eapply Forall2_impl; [exact Hout|].
  intros chunk out. unfold chunk_output.
  case_match; [by intros ->|]. intros [masked Hm]. by eapply Hsynth.
Qed.

Lemma length_concat_Forall2 {A} (chunks outs : list (list A)) :
  Forall2 (λ chunk out, length out = length chunk) chunks outs →
  length (concat outs) = length (concat chunks).
Proof.
  induction 1 as [|chunk out chunks outs Hlen _ IH]; [done|].
  simpl. rewrite !length_app. lia.
Qed.

Lemma denoise_file_run out_dir mean var use_gpu gpu_id truncate_minutes wav
    rate wav_data w w' r :
  denoise_file out_dir mean var use_gpu gpu_id truncate_minutes wav rate
    wav_data w = (w', r) →
  scratch w' = scratch w ∧ dirs w' = dirs w ∧
  match r with
  | Ok _ =>
      ∃ chunks outs,
        loop_chunks wav_data truncate_minutes rate = Ok chunks ∧
        1 ≤ chunk_length_of truncate_minutes rate ∧
        concat chunks = wav_data ∧
        Forall2 chunk_output chunks outs ∧
        files w'
        = <[os_path_join out_dir (os_path_basename wav)
              := WavFile SR (concat outs)]> (files w)
  | Raise _ => files w' = files w
  end.
Proof.
  unfold denoise_file, loop_chunks.
  set (chunk_length := chunk_length_of truncate_minutes rate).
  unfold mbind at 1. unfold lift at 1.
  destruct (py_ceil_div (Z.of_nat (length wav_data)) chunk_length)
    as [total|e] eqn:Hdiv; [|by intros [= <- <-]].
  unfold mbind at 1.
  destruct (for_acc _ (seqZ 1 total) [] w) as [w1 r1] eqn:Hloop.
  apply for_acc_chunks in Hloop as (Hs & Hf & Hd & Hr).
  destruct r1 as [data_se|e]; [|by intros [= <- <-]].
  destruct Hr as (outs & -> & Houts). simpl in Houts.
  unfold mbind, lift, np_concatenate, wav_io_write, print, emit.
  destruct outs as [|out outs]; [by intros [= <- <-]|].
  intros [= <- <-]. simpl. split_and!; try done.
  assert (1 ≤ total) as Htotal.
  { destruct (Z_lt_le_dec total 1) as [Hlt|]; [|done].
    rewrite seqZ_nil in Houts by lia. inversion Houts. }
  pose proof (ceil_div_positive (Z.of_nat (length wav_data)) chunk_length
    total ltac:(lia) Hdiv Htotal) as Hpos.
  eexists _, (out :: outs). split_and!; try done.
  - apply concat_chunks; [lia|].
    unfold py_ceil_div in Hdiv.
    destruct (Z.eqb_spec chunk_length 0); [done|]. injection Hdiv as <-.
    pose proof (ceil_div_spec (Z.of_nat (length wav_data)) chunk_length).
    lia.
  - by rewrite Hf.
Qed.


Lemma process_file_accepted out_dir mean var use_gpu gpu_id truncate_minutes
    wav wav_data w :
  files w !! wav = Some (WavFile SR wav_data) →
  let w1 := log_event (EvPeakNormalization wav_data)
              (log_event (EvWavRead wav) w) in
  process_file out_dir mean var use_gpu gpu_id truncate_minutes wav w
  = match peak_normalization wav_data with
    | Ok normed =>
        denoise_file out_dir mean var use_gpu gpu_id truncate_minutes wav SR
          normed w1
    | Raise e => (w1, Raise e)
    end.
Proof.
  intros Hfile w1.
  unfold process_file, wav_io_read, utils_peak_normalization, mbind, emit,
    lift.
  simpl. rewrite Hfile. simpl. by destruct (peak_normalization wav_data).
Qed.

Lemma for_each_raise {A} (body : A → M unit) x rest w w' e :
  body x w = (w', Raise e) → for_each body (x :: rest) w = (w', Raise e).
Proof. intros Hx. simpl. unfold mbind. by rewrite Hx. Qed.

(** ** C5: the length of the output *)

(** C5: when the synthesis returns as many samples as the chunk it is given
    (its contract in the spec, 4.2), the waveform that the processing of an
    accepted file writes under the file's base name in the output directory
    has as many samples as the peak-normalized input, for every
    [truncate_minutes] and however many chunks there were. *)
Theorem output_length_preserved (out_dir : string) (mean var : ndarray cell)
    (use_gpu : bool) (gpu_id : Z) (truncate_minutes : Q) (wav : string)
    w w' (wav_data normed : list sample) :
  (∀ masked_lps temp out,
     logspec2wav masked_lps temp = Ok out → length out = length temp) →
  files w !! wav = Some (WavFile SR wav_data) →
  peak_normalization wav_data = Ok normed →
  process_file out_dir mean var use_gpu gpu_id truncate_minutes wav w
    = (w', Ok tt) →
  ∃ chunks outs,
    loop_chunks normed truncate_minutes SR = Ok chunks ∧
    Forall2 chunk_output chunks outs ∧
    files w' !! os_path_join out_dir (os_path_basename wav)
      = Some (WavFile SR (concat outs)) ∧
    length (concat outs) = length normed.
Proof.
  intros Hsynth Hfile Hnorm Hrun.
  rewrite process_file_accepted with (wav_data := wav_data) in Hrun by done.
  rewrite Hnorm in Hrun.
  apply denoise_file_run in Hrun
    as (_ & _ & chunks & outs & Hchunks & _ & Hconcat & Houts & Hfiles).
  exists chunks, outs. split_and!; try done.
  - rewrite Hfiles. apply lookup_insert_eq.
  - rewrite <-Hconcat. apply length_concat_Forall2.
    by apply Forall2_chunk_output_length.
Qed.

(** ** C10: the file without samples *)

(** C10: for a file at [SR] Hz without samples (which the normalizer hands
    back as it is) and a [chunk_length] that is not 0, the number of chunks
    is 0, the loop over the chunks makes no iteration, [np.concatenate] gets
    the empty list and raises [ValueError]; nothing is written for the file
    and the exception ends the loop over the files. *)
Theorem empty_file_raises (out_dir : string) (mean var : ndarray cell)
    (use_gpu : bool) (gpu_id : Z) (truncate_minutes : Q) (wav : string)
    (rest : list string) w :
  files w !! wav = Some (WavFile SR []) →
  peak_normalization [] = Ok [] →
  chunk_length_of truncate_minutes SR ≠ 0 →
  ∃ w',
    py_ceil_div (Z.of_nat (length (@nil sample)))
      (chunk_length_of truncate_minutes SR) = Ok 0 ∧
    loop_chunks (@nil sample) truncate_minutes SR = Ok [] ∧
    np_concatenate (@nil (list sample)) = Raise ValueError ∧
    process_file out_dir mean var use_gpu gpu_id truncate_minutes wav w
      = (w', Raise ValueError) ∧
    trace w' = trace w ++ [EvWavRead wav; EvPeakNormalization []] ∧
    files w' = files w ∧ scratch w' = scratch w ∧
    for_wav_files out_dir mean var use_gpu gpu_id truncate_minutes
      (wav :: rest) w = (w', Raise ValueError).
Proof.
  intros Hfile Hnorm Hcl.
  assert (py_ceil_div (Z.of_nat (length (@nil sample)))
            (chunk_length_of truncate_minutes SR) = Ok 0) as Hdiv.
  { unfold py_ceil_div.
    destruct (Z.eqb_spec (chunk_length_of truncate_minutes SR) 0); [done|].
    simpl. by rewrite Z.div_0_l. }
  assert (process_file out_dir mean var use_gpu gpu_id truncate_minutes wav w
          = (log_event (EvPeakNormalization [])
               (log_event (EvWavRead wav) w), Raise ValueError)) as Hrun.
  { rewrite process_file_accepted with (wav_data := []) by done.
    rewrite Hnorm. unfold denoise_file, mbind, lift. by rewrite Hdiv. }
  eexists. split_and!; try done.
  - unfold loop_chunks. by rewrite Hdiv.
  - simpl. by rewrite <-app_assoc.
  - by apply for_each_raise.
Qed.


(** ** C3: the failure of the predictor *)

Lemma predictor_fails_script d temp mean var use_gpu gpu_id :
  predictor_fails d temp mean var use_gpu gpu_id →
  ∃ e, (enhance_script d temp mean var use_gpu gpu_id).1 = Raise e.
Proof.
  intros (lps & normed & e & Hlps & Hmvn & Hfail).
  exists e. unfold enhance_script. by rewrite Hlps, Hmvn, Hfail.
Qed.

Lemma chunk_body_raises wav wav_data chunk_length total_chunks mean var
    use_gpu gpu_id data_se i w :
  WL2 ≤ Z.of_nat (length (chunk_at wav_data chunk_length i)) →
  predictor_fails (fresh (dom (scratch w))) (chunk_at wav_data chunk_length i)
    mean var use_gpu gpu_id →
  ∃ w' e,
    chunk_body wav wav_data chunk_length total_chunks mean var use_gpu gpu_id
      data_se i w = (w', Raise e).
Proof.
  intros Hlong [e He]%predictor_fails_script.
  destruct (chunk_body_script wav wav_data chunk_length total_chunks mean var
    use_gpu gpu_id data_se i w) as (w' & Hrun & _).
  exists w', e. rewrite Hrun. f_equal. unfold chunk_script.
  destruct (Z.ltb_spec (Z.of_nat (length (chunk_at wav_data chunk_length i)))
    WL2) as [?|_]; [lia|].
  simpl. by rewrite He.
Qed.

Lemma for_acc_raises wav wav_data chunk_length total_chunks mean var
    use_gpu gpu_id idx i data_se w :
  i ∈ idx →
  WL2 ≤ Z.of_nat (length (chunk_at wav_data chunk_length i)) →
  predictor_fails (fresh (dom (scratch w))) (chunk_at wav_data chunk_length i)
    mean var use_gpu gpu_id →
  ∃ w' e,
    for_acc
      (chunk_body wav wav_data chunk_length total_chunks mean var use_gpu
         gpu_id) idx data_se w = (w', Raise e).
Proof.
  intros Hin Hlong. revert data_se w.
  induction idx as [|x idx IH]; intros data_se w Hfail.
  { by apply elem_of_nil in Hin. }
  simpl. unfold mbind.
  destruct (chunk_body _ _ _ _ _ _ _ _ data_se x w) as [w1 [ds1|e1]] eqn:Hx;
    [|by eauto].
  apply elem_of_cons in Hin as [->|Hin].
  - destruct (chunk_body_raises wav wav_data chunk_length total_chunks mean
      var use_gpu gpu_id data_se x w Hlong Hfail) as (w2 & e2 & Hx2).
    congruence.
  - apply chunk_body_step in Hx as (Hs & _).
    apply IH; [done|]. by rewrite Hs.
Qed.

(** C3, as amended: when the predictor fails on some chunk of a file
    ([irm.mat] missing after a worker that died, or unreadable, or without
    the variable [IRM], or of a shape that does not broadcast against the
    features), the processing of the file raises: no output file is written
    for it and its scratch directory is gone, but nothing catches the
    exception, which ends the loop over the files: the files that remain in
    the batch are not processed. *)
Theorem predictor_failure_aborts_batch (out_dir : string)
    (mean var : ndarray cell) (use_gpu : bool) (gpu_id : Z)
    (truncate_minutes : Q) (wav : string) (rest : list string) w
    (wav_data normed : list sample) (total_chunks i : Z) :
  files w !! wav = Some (WavFile SR wav_data) →
  peak_normalization wav_data = Ok normed →
  py_ceil_div (Z.of_nat (length normed)) (chunk_length_of truncate_minutes SR)
    = Ok total_chunks →
  1 ≤ i ≤ total_chunks →
  WL2 ≤ Z.of_nat
          (length (chunk_at normed (chunk_length_of truncate_minutes SR) i)) →
  predictor_fails (fresh (dom (scratch w)))
    (chunk_at normed (chunk_length_of truncate_minutes SR) i) mean var use_gpu
    gpu_id →
  ∃ w' e,
    process_file out_dir mean var use_gpu gpu_id truncate_minutes wav w
      = (w', Raise e) ∧
    files w' = files w ∧ scratch w' = scratch w ∧ dirs w' = dirs w ∧
    for_wav_files out_dir mean var use_gpu gpu_id truncate_minutes
      (wav :: rest) w = (w', Raise e).
Proof.
  intros Hfile Hnorm Hdiv Hi Hlong Hfail.
  set (w1 := log_event (EvPeakNormalization wav_data)
               (log_event (EvWavRead wav) w)).
  destruct (for_acc_raises wav normed (chunk_length_of truncate_minutes SR)
    total_chunks mean var use_gpu gpu_id (seqZ 1 total_chunks) i [] w1)
    as (w' & e & Hloop); [apply elem_of_seqZ; lia|done|done|].
  assert (process_file out_dir mean var use_gpu gpu_id truncate_minutes wav w
          = (w', Raise e)) as Hrun.
  { rewrite process_file_accepted with (wav_data := wav_data) by done.
    rewrite Hnorm. fold w1. unfold denoise_file, mbind, lift.
    by rewrite Hdiv, Hloop. }
  exists w', e. apply for_acc_chunks in Hloop as (Hs & Hf & Hd & _).
  split_and!; try done. by apply for_each_raise.
Qed.


(** ** C6: the chunk that is too short *)

(** C6: a chunk of fewer than [WL2 = 256] samples is appended to [data_se]
    as it was cut from the peak-normalized waveform; the iteration raises
    nothing and makes three calls only, [mkdtemp], the progress line and
    [rmtree]: no feature extraction, no worker, no synthesis. When the
    file is then written, the waveform is the concatenation of the pieces
    of [data_se], and the piece of that chunk is the chunk itself. *)
Theorem short_chunk_passes_through (wav : string) (wav_data : list sample)
    (chunk_length total_chunks : Z) (mean var : ndarray cell)
    (use_gpu : bool) (gpu_id : Z) (i : Z) :
  Z.of_nat (length (chunk_at wav_data chunk_length i)) < 256 →
  (∀ data_se w, ∃ d w',
     chunk_body wav wav_data chunk_length total_chunks mean var use_gpu
       gpu_id data_se i w
     = (w', Ok (data_se ++ [chunk_at wav_data chunk_length i])) ∧
     trace w' = trace w ++ [EvMkdtemp d;
                            EvPrint (segment_message wav i total_chunks);
                            EvRmtree d] ∧
     scratch w' = scratch w ∧ files w' = files w ∧ dirs w' = dirs w) ∧
  (∀ out_dir truncate_minutes raw w w',
     chunk_length = chunk_length_of truncate_minutes SR →
     py_ceil_div (Z.of_nat (length wav_data)) chunk_length
       = Ok total_chunks →
     1 ≤ i ≤ total_chunks →
     files w !! wav = Some (WavFile SR raw) →
     peak_normalization raw = Ok wav_data →
     process_file out_dir mean var use_gpu gpu_id truncate_minutes wav w
       = (w', Ok tt) →
     ∃ outs,
       files w' !! os_path_join out_dir (os_path_basename wav)
         = Some (WavFile SR (concat outs)) ∧
       outs !! Z.to_nat (i - 1) = Some (chunk_at wav_data chunk_length i)).
Proof.
  intros Hshort. split.
  - intros data_se w.
    destruct (chunk_body_script wav wav_data chunk_length total_chunks mean
      var use_gpu gpu_id data_se i w) as (w' & Hrun & Htrace & Hrest).
    unfold chunk_script in Hrun, Htrace.
    destruct (Z.ltb_spec
      (Z.of_nat (length (chunk_at wav_data chunk_length i))) WL2)
      as [_|Hlong]; [|change WL2 with 256 in Hlong; lia].
    by exists (fresh (dom (scratch w))), w'.
  - intros out_dir truncate_minutes raw w w' -> Hdiv Hi Hfile Hnorm Hrun.
    rewrite process_file_accepted with (wav_data := raw) in Hrun by done.
    rewrite Hnorm in Hrun.
    apply denoise_file_run in Hrun
      as (_ & _ & chunks & outs & Hchunks & _ & _ & Houts & Hfiles).
    unfold loop_chunks in Hchunks. rewrite Hdiv in Hchunks.
    injection Hchunks as <-.
    assert (map (chunk_at wav_data (chunk_length_of truncate_minutes SR))
              (seqZ 1 total_chunks) !! Z.to_nat (i - 1)
            = Some (chunk_at wav_data (chunk_length_of truncate_minutes SR) i))
      as Hlook.
    { rewrite list_lookup_fmap, lookup_seqZ_lt by lia.
      simpl. do 2 f_equal. lia. }
    destruct (Forall2_lookup_l _ _ _ _ _ Houts Hlook) as (out & Hout & Hrel).
    exists outs. split; [rewrite Hfiles; apply lookup_insert_eq|].
    rewrite Hout. f_equal. unfold chunk_output in Hrel.
    destruct (Z.ltb_spec
      (Z.of_nat (length (chunk_at wav_data
                           (chunk_length_of truncate_minutes SR) i))) WL2)
      as [_|Hlong]; [done|change WL2 with 256 in Hlong; lia].
Qed.

(** ** Files that are processed to the end *)

Lemma for_acc_succeeds wav wav_data chunk_length total_chunks mean var
    use_gpu gpu_id idx data_se w :
  (∀ i, i ∈ idx →
     WL2 ≤ Z.of_nat (length (chunk_at wav_data chunk_length i)) →
     ∃ out, (enhance_script (fresh (dom (scratch w)))
               (chunk_at wav_data chunk_length i) mean var use_gpu gpu_id).1
            = Ok out) →
  ∃ w' data_se',
    for_acc
      (chunk_body wav wav_data chunk_length total_chunks mean var use_gpu
         gpu_id) idx data_se w = (w', Ok data_se').
Proof.
  revert data_se w. induction idx as [|x idx IH]; intros data_se w Hok.
  { by eexists _, _. }
  simpl. unfold mbind.
  destruct (chunk_body_script wav wav_data chunk_length total_chunks mean var
    use_gpu gpu_id data_se x w) as (w1 & Hrun & _ & Hs & _).
  rewrite Hrun. unfold chunk_script.
  destruct (Z.ltb_spec (Z.of_nat (length (chunk_at wav_data chunk_length x)))
    WL2) as [Hshort|Hlong]; simpl.
  - apply IH. intros i Hi. rewrite Hs. apply Hok. by right.
  - destruct (Hok x ltac:(by left) Hlong) as [out ->]. simpl.
    apply IH. intros i Hi. rewrite Hs. apply Hok. by right.
Qed.

(** An accepted file with samples, a [chunk_length] of at least 1 and
    chunks that are each too short or enhanced without an exception is
    processed to the end. *)
Lemma process_file_succeeds (out_dir : string) (mean var : ndarray cell)
    (use_gpu : bool) (gpu_id : Z) (truncate_minutes : Q) (wav : string) w
    (wav_data normed : list sample) :
  files w !! wav = Some (WavFile SR wav_data) →
  peak_normalization wav_data = Ok normed →
  normed ≠ [] →
  1 ≤ chunk_length_of truncate_minutes SR →
  (∀ i, 1 ≤ i →
     WL2 ≤ Z.of_nat
             (length (chunk_at normed (chunk_length_of truncate_minutes SR)
                        i)) →
     ∃ out, (enhance_script (fresh (dom (scratch w)))
               (chunk_at normed (chunk_length_of truncate_minutes SR) i)
               mean var use_gpu gpu_id).1 = Ok out) →
  ∃ w',
    process_file out_dir mean var use_gpu gpu_id truncate_minutes wav w
      = (w', Ok tt).
Proof.
  intros Hfile Hnorm Hne Hcl Hok.
  rewrite process_file_accepted with (wav_data := wav_data) by done.
  rewrite Hnorm. unfold denoise_file.
  set (chunk_length := chunk_length_of truncate_minutes SR) in *.
  set (w1 := log_event _ _).
  set (total := - ((- Z.of_nat (length normed)) `div` chunk_length)).
  assert (py_ceil_div (Z.of_nat (length normed)) chunk_length = Ok total)
    as Hdiv.
  { unfold py_ceil_div. destruct (Z.eqb_spec chunk_length 0); [lia|done]. }
  pose proof (ceil_div_spec (Z.of_nat (length normed)) chunk_length
    ltac:(lia)) as Hceil. fold total in Hceil.
  assert (1 ≤ total) as Htotal.
  { destruct normed; [done|]. simpl length in Hceil. nia. }
  destruct (for_acc_succeeds wav normed chunk_length total mean var use_gpu
    gpu_id (seqZ 1 total) [] w1) as (w2 & data_se & Hloop).
  { intros i Hi%elem_of_seqZ Hlong. apply Hok; [lia|done]. }
  unfold mbind at 1. unfold lift at 1. rewrite Hdiv.
  unfold mbind at 1. rewrite Hloop.
  apply for_acc_chunks in Hloop as (_ & _ & _ & outs & -> & Houts).
  simpl in Houts.
  destruct outs as [|out outs].
  { rewrite seqZ_cons in Houts by lia. inversion Houts. }
  unfold mbind, lift, np_concatenate, wav_io_write, print, emit. simpl.
  by eexists.
Qed.

End Properties.

(** * Cell by cell: lines 113 and 137 *)

Section Cells.

Context {cell : Type} `{NumOps cell}.

Lemma broadcast_dim_same (n : nat) : broadcast_dim n n = Some n.
Proof. unfold broadcast_dim. by rewrite Nat.eqb_refl. Qed.

Lemma broadcast_dim_one (n : nat) : broadcast_dim n 1 = Some n.
Proof.
  unfold broadcast_dim. destruct (Nat.eqb_spec n 1) as [->|]; [done|].
  by rewrite Nat.eqb_refl.
Qed.

Lemma bidx_lt (n i : nat) : (i < n)%nat → bidx n i = i.
Proof. unfold bidx. destruct (Nat.eqb_spec n 1); lia. Qed.

(** Line 137 on a mask of the features' shape: cell by cell, the feature
    plus the logarithm of the mask. *)
Lemma mask_lps_cells (lps irm : ndarray cell) :
  shape0 irm = shape0 lps → shape1 irm = shape1 lps →
  ∃ masked,
    mask_lps lps irm = Ok masked ∧
    shape0 masked = shape0 lps ∧ shape1 masked = shape1 lps ∧
    ∀ i j, (i < shape0 lps)%nat → (j < shape1 lps)%nat →
      item masked i j = num_add (item lps i j) (num_log (item irm i j)).
Proof.
  intros H0 H1. unfold mask_lps, np_add, np_binop. simpl.
  rewrite H0, H1, !broadcast_dim_same.
  eexists. split; [done|]. simpl. split_and!; try done.
  intros i j Hi Hj. by rewrite !bidx_lt.
Qed.

(** Line 113 on statistics that are one row as wide as the features: cell by
    cell, the feature minus the mean of its bin, over the variance of its
    bin. *)
Lemma mvn_cells (lps mean var : ndarray cell) :
  shape0 mean = 1%nat → shape1 mean = shape1 lps →
  shape0 var = 1%nat → shape1 var = shape1 lps →
  ∃ normed,
    mvn lps mean var = Ok normed ∧
    shape0 normed = shape0 lps ∧ shape1 normed = shape1 lps ∧
    ∀ i j, (i < shape0 lps)%nat → (j < shape1 lps)%nat →
      item normed i j
      = num_div (num_sub (item lps i j) (item mean 0%nat j))
          (item var 0%nat j).
Proof.
  intros Hm0 Hm1 Hv0 Hv1. unfold mvn, np_sub, np_div, np_binop.
  rewrite Hm0, Hm1, broadcast_dim_one, broadcast_dim_same. simpl.
  rewrite Hv0, Hv1, broadcast_dim_one, broadcast_dim_same.
  eexists. split; [done|]. simpl. split_and!; try done.
  intros i j Hi Hj. rewrite !(bidx_lt _ i), !(bidx_lt _ j) by done.
  reflexivity.
Qed.

End Cells.

(** * C2: the mask is not clamped *)

(** C2, as amended: the masking operation takes the logarithm of the mask as
    it was loaded, without a clamp. For a mask of the features' shape it
    raises nothing and every cell is the feature plus [np.log] of the mask
    cell: a finite number where the feature is finite and the mask cell is
    positive, [-inf] where the mask cell is zero, [nan] where it is
    negative. *)
Theorem mask_is_not_clamped (lps irm : ndarray npfloat) :
  shape0 irm = shape0 lps → shape1 irm = shape1 lps →
  ∃ masked,
    mask_lps lps irm = Ok masked ∧
    ∀ i j x m, (i < shape0 lps)%nat → (j < shape1 lps)%nat →
      item lps i j = Finite x → item irm i j = Finite m →
      item masked i j = npf_add (Finite x) (npf_log (Finite m)) ∧
      ((0 < m)%R → item masked i j = Finite (x + ln m)) ∧
      (m = 0%R → item masked i j = NegInf) ∧
      ((m < 0)%R → item masked i j = NaN).
Proof.
  intros H0 H1.
  destruct (mask_lps_cells lps irm H0 H1) as (masked & Hm & _ & _ & Hcell).
  exists masked. split; [done|].
  intros i j x m Hi Hj Hx Hmask. rewrite Hcell, Hx, Hmask by done.
  simpl. split_and!; [done| | |]; intros Hsign.
  - by destruct (Rlt_dec 0 m).
  - subst m. destruct (Rlt_dec 0 0) as [Hlt|_]; [lra|].
    destruct (Rlt_dec 0 0) as [Hlt|_]; [lra|]. done.
  - destruct (Rlt_dec 0 m) as [Hlt|_]; [lra|].
    by destruct (Rlt_dec m 0).
Qed.

Lemma mask_is_not_clamped_witness :
  shape0 (NdArray 1 1 (λ _ _, Finite 1%R))
    = shape0 (NdArray 1 1 (λ _ _, Finite 3%R)) ∧
  shape1 (NdArray 1 1 (λ _ _, Finite 1%R))
    = shape1 (NdArray 1 1 (λ _ _, Finite 3%R)) ∧
  ∃ masked,
    mask_lps (NdArray 1 1 (λ _ _, Finite 3%R))
      (NdArray 1 1 (λ _ _, Finite 1%R)) = Ok masked ∧
    item masked 0%nat 0%nat = Finite (3 + ln 1).
Proof.
  split; [reflexivity|]. split; [reflexivity|].
  destruct (mask_is_not_clamped (NdArray 1 1 (λ _ _, Finite 3%R))
              (NdArray 1 1 (λ _ _, Finite 1%R)) eq_refl eq_refl)
    as (masked & Hm & Hc).
  exists masked. split; [exact Hm|].
  destruct (Hc 0%nat 0%nat 3%R 1%R) as (_ & Hpos & _);
    [simpl; lia|simpl; lia|reflexivity|reflexivity|].
  apply Hpos. lra.
Defined.

(** C2, as stated, fails: a mask cell that is zero goes into [np.log] as it
    is and the masked cell is [-inf]; a negative one gives [nan]. *)
Lemma zero_mask_gives_neg_inf :
  ∃ masked,
    mask_lps (NdArray 1 2 (λ _ _, Finite 3%R))
      (NdArray 1 2 (λ _ j, if (j =? 0)%nat then Finite 0%R
                           else Finite (-1)%R))
    = Ok masked ∧
    item masked 0%nat 0%nat = NegInf ∧
    item masked 0%nat 1%nat = NaN.
Proof.
  eexists. split; [reflexivity|]. simpl. split.
  - destruct (Rlt_dec 0 0) as [Hlt|_]; [lra|].
    destruct (Rlt_dec 0 0) as [Hlt|_]; [lra|]. done.
  - destruct (Rlt_dec 0 (-1)) as [Hlt|_]; [lra|].
    destruct (Rlt_dec (-1) 0) as [_|Hge]; [done|lra].
Qed.

(** * The theorems at work on the concrete installation *)

Lemma wrong_rate_file_skipped_witness :
  files demo_world !! "in/b.wav" = Some (WavFile 8000 [1; 2; 3; 4]) ∧
  8000 ≠ SR ∧
  ∃ w', demo_process_file "in/b.wav" demo_world = (w', Ok tt) ∧
        files w' = files demo_world.
Proof.
  split; [reflexivity|]. split; [discriminate|].
  destruct (wrong_rate_file_skipped (Imports0 := demo_imports) "out"
              demo_mean demo_var true 0 (10 # 1) "in/b.wav" [] demo_world
              8000 [1; 2; 3; 4] eq_refl ltac:(discriminate))
    as (w' & Hrun & _ & Hfiles & _).
  exists w'. split; [exact Hrun|exact Hfiles].
Defined.

Lemma features_normalized_mask_on_raw_lps_witness :
  scaled_chunk_body [] 1 demo_world
    = ((scaled_chunk_body [] 1 demo_world).1,
       (scaled_chunk_body [] 1 demo_world).2) ∧
  trace (scaled_chunk_body [] 1 demo_world).1
    = trace demo_world ++ trace (scaled_chunk_body [] 1 demo_world).1 ∧
  (∃ seen normed_noisy,
     EvDecodeModel "0/noisy_normed_lps.scp" "0" NFREQS true 0 seen
       ∈ trace (scaled_chunk_body [] 1 demo_world).1 ∧
     seen !! "0/noisy_normed_lps.htk" = Some (HtkFile SR 9 normed_noisy) ∧
     ∀ t f, (t < demo_frames 300)%nat → (f < NFREQS)%nat →
       item normed_noisy t f
       = num_div (num_sub (Finite 0%R) (Finite 1%R)) (Finite 2%R)) ∧
  (∃ masked_lps,
     EvLogspec2wav masked_lps (replicate 300 7)
       ∈ trace (scaled_chunk_body [] 1 demo_world).1 ∧
     ∀ t f, (t < demo_frames 300)%nat → (f < NFREQS)%nat →
       item masked_lps t f
       = num_add (Finite 0%R) (num_log (Finite 1%R))).
Proof.
  split; [apply surjective_pairing|]. split; [reflexivity|].
  pose proof (features_normalized_mask_on_raw_lps (Imports0 := demo_imports)
    "in/a.wav" (replicate 300 7) 9600000 1 unit_mean double_var true 0 [] 1
    demo_world _ _ _ (surjective_pairing _) eq_refl) as [Hworker Hmask].
  split.
  - eassert (EvDecodeModel "0/noisy_normed_lps.scp" "0" NFREQS true 0 _
             ∈ trace (scaled_chunk_body [] 1 demo_world).1) as Hin.
    { apply list_elem_of_lookup. exists 5%nat. reflexivity. }
    destruct (Hworker _ _ _ _ _ _ Hin)
      as (lps & normed & Hlps & Hsee & _ & _ & Hcells).
    injection Hlps as <-.
    destruct (Hcells eq_refl eq_refl eq_refl eq_refl) as (_ & _ & Hc).
    eexists _, normed. split; [exact Hin|]. split; [exact Hsee|exact Hc].
  - eassert (EvLogspec2wav _ (replicate 300 7)
             ∈ trace (scaled_chunk_body [] 1 demo_world).1) as Hin.
    { apply list_elem_of_lookup. exists 7%nat. reflexivity. }
    destruct (Hmask _ _ Hin)
      as (_ & lps & scp_fn & out_dir & seen & irm & Hlps & Hdm & Hirm & _ & _
          & Hcells).
    injection Hlps as <-.
    assert (irm = NdArray (demo_frames 300) NFREQS (λ _ _, Finite 1%R))
      as ->.
    { apply list_elem_of_lookup in Hdm as [k Hk].
      do 9 (try (destruct k as [|k]; [vm_compute in Hk; try discriminate|]));
        [|vm_compute in Hk; discriminate].
      injection Hk as <- <- <-. vm_compute in Hirm.
      injection Hirm as <-. vm_compute. reflexivity. }
    eexists. split; [exact Hin|].
    destruct (Hcells eq_refl eq_refl) as (_ & _ & Hc). exact Hc.
Defined.

Lemma index_record_names_all_frames_witness :
  demo_chunk_body [] 1 demo_world
    = ((demo_chunk_body [] 1 demo_world).1,
       (demo_chunk_body [] 1 demo_world).2) ∧
  trace (demo_chunk_body [] 1 demo_world).1
    = trace demo_world ++ trace (demo_chunk_body [] 1 demo_world).1 ∧
  ∃ seen,
    EvDecodeModel "0/noisy_normed_lps.scp" "0" NFREQS true 0 seen
      ∈ trace (demo_chunk_body [] 1 demo_world).1 ∧
    seen !! "0/noisy_normed_lps.scp"
      = Some (TextFile (index_record "irm" "0/noisy_normed_lps.htk" 0 0)).
Proof.
  split; [apply surjective_pairing|]. split; [reflexivity|].
  pose proof (index_record_names_all_frames (Imports0 := demo_imports)
    "in/a.wav" (replicate 300 7) 9600000 1 demo_mean demo_var true 0 [] 1
    demo_world _ _ _ (surjective_pairing _) eq_refl) as Hrecord.
  eassert (EvDecodeModel "0/noisy_normed_lps.scp" "0" NFREQS true 0 _
           ∈ trace (demo_chunk_body [] 1 demo_world).1) as Hin.
  { apply list_elem_of_lookup. exists 5%nat. reflexivity. }
  destruct (Hrecord _ _ _ _ _ _ Hin) as (lps & Hlps & _ & Hseen & _).
  injection Hlps as <-.
  eexists. split; [exact Hin|exact Hseen].
Defined.

(** C9, as stated, fails: for a feature matrix of one frame the record
    names the range [[0,0]]; no range that leaves out its last bound is
    written in this record and covers the one frame. *)
Lemma index_record_last_frame_is_included :
  ∃ seen,
    (demo_chunk_body [] 1 demo_world).1.(trace) !! 5%nat
      = Some (EvDecodeModel "0/noisy_normed_lps.scp" "0" NFREQS true 0 seen) ∧
    (∃ normed, seen !! "0/noisy_normed_lps.htk" = Some (HtkFile SR 9 normed)
               ∧ shape0 normed = 1%nat) ∧
    seen !! "0/noisy_normed_lps.scp"
      = Some (TextFile (index_record "irm" "0/noisy_normed_lps.htk" 0 0)) ∧
    ¬ ∃ first_frame last_frame,
        index_record "irm" "0/noisy_normed_lps.htk" 0 0
          = index_record "irm" "0/noisy_normed_lps.htk" first_frame
              last_frame ∧
        frames_last_excluded first_frame last_frame = seqZ 0 1.
Proof.
  eexists. split; [reflexivity|]. split; [eexists; split; reflexivity|].
  split; [reflexivity|].
  intros (first_frame & last_frame & Htext & Hcover).
  unfold frames_last_excluded in Hcover.
  assert (last_frame - first_frame = 1) as Hlen.
  { apply (f_equal length) in Hcover. rewrite !length_seqZ in Hcover. lia. }
  rewrite Hlen in Hcover. change (seqZ 0 1) with [0] in Hcover.
  rewrite seqZ_cons in Hcover by lia. injection Hcover as Hfirst. subst first_frame.
  assert (last_frame = 1) as -> by lia.
  vm_compute in Htext. discriminate.
Qed.

Lemma output_length_preserved_witness :
  (∀ masked_lps temp out,
     @logspec2wav Z npfloat demo_imports masked_lps temp = Ok out →
     length out = length temp) ∧
  files demo_world !! "in/a.wav" = Some (WavFile SR (replicate 300 7)) ∧
  @peak_normalization Z npfloat demo_imports (replicate 300 7)
    = Ok (replicate 300 7) ∧
  demo_process_file "in/a.wav" demo_world
    = ((demo_process_file "in/a.wav" demo_world).1, Ok tt) ∧
  ∃ data_se,
    files (demo_process_file "in/a.wav" demo_world).1 !! "out/a.wav"
      = Some (WavFile SR data_se) ∧
    length data_se = 300%nat.
Proof.
  assert (∀ masked_lps temp out,
     @logspec2wav Z npfloat demo_imports masked_lps temp = Ok out →
     length out = length temp) as Hsynth
    by (intros masked_lps temp out [= <-]; reflexivity).
  assert (demo_process_file "in/a.wav" demo_world
          = ((demo_process_file "in/a.wav" demo_world).1, Ok tt)) as Hrun.
  { rewrite (surjective_pairing (demo_process_file "in/a.wav" demo_world))
      at 1.
    f_equal; vm_compute; reflexivity. }
  split; [exact Hsynth|]. split; [reflexivity|]. split; [reflexivity|].
  split; [exact Hrun|].
  destruct (output_length_preserved (Imports0 := demo_imports) "out"
              demo_mean demo_var true 0 (10 # 1) "in/a.wav" demo_world _
              (replicate 300 7) (replicate 300 7) Hsynth eq_refl eq_refl Hrun)
    as (chunks & outs & _ & _ & Hout & Hlen).
  exists (concat outs). split; [exact Hout|].
  rewrite Hlen. reflexivity.
Defined.

Lemma empty_file_raises_witness :
  files demo_world !! "in/c.wav" = Some (WavFile SR []) ∧
  @peak_normalization Z npfloat demo_imports [] = Ok [] ∧
  chunk_length_of (10 # 1) SR ≠ 0 ∧
  ∃ w', demo_process_file "in/c.wav" demo_world = (w', Raise ValueError) ∧
        files w' = files demo_world.
Proof.
  split; [reflexivity|]. split; [reflexivity|]. split; [discriminate|].
  destruct (empty_file_raises (Imports0 := demo_imports) "out" demo_mean
              demo_var true 0 (10 # 1) "in/c.wav" [] demo_world eq_refl
              eq_refl ltac:(discriminate))
    as (w' & _ & _ & _ & Hrun & _ & Hfiles & _).
  exists w'. split; [exact Hrun|exact Hfiles].
Defined.

Lemma predictor_failure_aborts_batch_witness :
  files demo_world !! "in/a.wav" = Some (WavFile SR (replicate 300 7)) ∧
  py_ceil_div 300 (chunk_length_of (10 # 1) SR) = Ok 1 ∧
  WL2 ≤ Z.of_nat
          (length (chunk_at (replicate 300 7) (chunk_length_of (10 # 1) SR)
                     1)) ∧
  @predictor_fails Z npfloat npfloat_ops dead_worker_imports
    (fresh (dom (scratch demo_world)))
    (chunk_at (replicate 300 7) (chunk_length_of (10 # 1) SR) 1)
    demo_mean demo_var true 0 ∧
  ∃ w' e,
    dead_worker_process_file "in/a.wav" demo_world = (w', Raise e) ∧
    files w' = files demo_world ∧
    @for_wav_files Z npfloat npfloat_ops dead_worker_imports "out" demo_mean
      demo_var true 0 (10 # 1) ["in/a.wav"; "in/s.wav"] demo_world
    = (w', Raise e).
Proof.
  assert (@predictor_fails Z npfloat npfloat_ops dead_worker_imports
    (fresh (dom (scratch demo_world)))
    (chunk_at (replicate 300 7) (chunk_length_of (10 # 1) SR) 1)
    demo_mean demo_var true 0) as Hfail.
  { eexists _, _, _. split; [reflexivity|]. split; reflexivity. }
  split; [reflexivity|]. split; [reflexivity|]. split; [discriminate|].
  split; [exact Hfail|].
  destruct (predictor_failure_aborts_batch (Imports0 := dead_worker_imports)
              "out" demo_mean demo_var true 0 (10 # 1) "in/a.wav"
              ["in/s.wav"] demo_world (replicate 300 7) (replicate 300 7) 1 1
              eq_refl eq_refl eq_refl ltac:(lia) ltac:(discriminate) Hfail)
    as (w' & e & Hrun & Hfiles & _ & _ & Hbatch).
  exists w', e. split; [exact Hrun|]. split; [exact Hfiles|exact Hbatch].
Defined.

(** C3, as stated, fails: with a worker that dies on the first file of the
    batch, [main_denoising] ends with the [IOError] of line 136 and the
    second file, which needs no predictor and is written when it is
    submitted alone, is never written. *)
Lemma dead_worker_aborts_batch :
  (dead_worker_main ["in/a.wav"; "in/s.wav"] demo_world).2 = Raise IOError ∧
  files (dead_worker_main ["in/a.wav"; "in/s.wav"] demo_world).1
    !! "out/a.wav" = None ∧
  files (dead_worker_main ["in/a.wav"; "in/s.wav"] demo_world).1
    !! "out/s.wav" = None ∧
  (dead_worker_main ["in/s.wav"] demo_world).2 = Ok tt ∧
  files (dead_worker_main ["in/s.wav"] demo_world).1 !! "out/s.wav"
    = Some (WavFile SR [1; 2; 3; 4]).
Proof. split_and!; vm_compute; reflexivity. Qed.

Lemma short_chunk_passes_through_witness :
  Z.of_nat (length (chunk_at [1; 2; 3; 4] 9600000 1)) < 256 ∧
  (∃ d w',
     @chunk_body Z npfloat npfloat_ops demo_imports "in/s.wav" [1; 2; 3; 4]
       9600000 1 demo_mean demo_var true 0 [] 1 demo_world
     = (w', Ok [[1; 2; 3; 4]]) ∧
     trace w' = [EvMkdtemp d;
                 EvPrint "Processing file: in/s.wav, segment: 1/1.";
                 EvRmtree d]) ∧
  ∃ outs,
    files (demo_process_file "in/s.wav" demo_world).1 !! "out/s.wav"
      = Some (WavFile SR (concat outs)) ∧
    outs !! 0%nat = Some [1; 2; 3; 4].
Proof.
  split; [reflexivity|].
  destruct (short_chunk_passes_through (Imports0 := demo_imports) "in/s.wav"
              [1; 2; 3; 4] 9600000 1 demo_mean demo_var true 0 1 eq_refl)
    as [Hchunk Hfile].
  split.
  - destruct (Hchunk [] demo_world) as (d & w' & Hrun & Htrace & _).
    exists d, w'. split; [exact Hrun|exact Htrace].
  - apply (Hfile "out" (10 # 1) [1; 2; 3; 4] demo_world);
      [reflexivity|reflexivity|lia|reflexivity|reflexivity|].
    rewrite (surjective_pairing (demo_process_file "in/s.wav" demo_world))
      at 1.
    f_equal; vm_compute; reflexivity.
Defined.

(** * The batch as a whole *)

Section Batch.

Context {sample cell : Type} `{NumOps cell} `{!Imports sample cell}.

Abbreviation world := (world sample cell).
Abbreviation M := (M sample cell).
Abbreviation event := (event sample cell).
Abbreviation file := (file sample cell).

Implicit Types (w : world) (d : string) (temp : list sample).

Local Arguments os_path_join : simpl never.
Local Arguments os_path_basename : simpl never.

(** ** One file, outcome by outcome *)

Lemma process_file_rejected out_dir mean var use_gpu gpu_id truncate_minutes
    wav w rate wav_data :
  files w !! wav = Some (WavFile rate wav_data) → rate ≠ SR →
  process_file out_dir mean var use_gpu gpu_id truncate_minutes wav w
  = (log_event (EvPrint (skip_message wav)) (log_event (EvWavRead wav) w),
     Ok tt).
Proof.
  intros Hfile Hrate.
  unfold process_file, wav_io_read, mbind, emit, print. simpl.
  rewrite Hfile. simpl. by destruct (Z.eqb_spec rate SR).
Qed.

Lemma process_file_unreadable out_dir mean var use_gpu gpu_id
    truncate_minutes wav w :
  (∀ rate wav_data, files w !! wav ≠ Some (WavFile rate wav_data)) →
  process_file out_dir mean var use_gpu gpu_id truncate_minutes wav w
  = (log_event (EvWavRead wav) w,
     Raise (match files w !! wav with
            | Some _ => ValueError
            | None => IOError
            end)).
Proof.
  intros Hfile.
  unfold process_file, wav_io_read, mbind, emit. simpl.
  destruct (files w !! wav) as [[rate data| | | |]|]; try done.
  by destruct (Hfile rate data).
Qed.

Lemma process_file_cases out_dir mean var use_gpu gpu_id truncate_minutes
    wav w w' r :
  process_file out_dir mean var use_gpu gpu_id truncate_minutes wav w
    = (w', r) →
  scratch w' = scratch w ∧ dirs w' = dirs w ∧
  (files w' = files w ∨
   ∃ data_se, r = Ok tt ∧
     files w' = <[output_path out_dir wav := WavFile SR data_se]> (files w)) ∧
  (∀ e, r = Raise e → files w' = files w).
Proof.
  intros Hrun.
  destruct (files w !! wav) as [f|] eqn:Hfile.
  2:{ rewrite process_file_unreadable in Hrun by (by rewrite Hfile).
      injection Hrun as <- <-. split_and!; auto. }
  destruct f as [rate wav_data|vars|sp pk data|text|].
  2-5: rewrite process_file_unreadable in Hrun by (by rewrite Hfile);
       injection Hrun as <- <-; split_and!; auto.
  destruct (decide (rate = SR)) as [->|Hrate].
  - rewrite process_file_accepted with (wav_data := wav_data) in Hrun by done.
    destruct (peak_normalization wav_data) as [normed|e].
    + apply denoise_file_run in Hrun as (Hs & Hd & Hr).
      destruct r as [[]|e].
      * destruct Hr as (chunks & outs & _ & _ & _ & _ & Hf).
        split_and!; [done|done| |done]. right. by exists (concat outs).
      * split_and!; auto.
    + injection Hrun as <- <-. split_and!; auto.
  - rewrite process_file_rejected with (rate := rate) (wav_data := wav_data)
      in Hrun by done.
    injection Hrun as <- <-. split_and!; auto.
Qed.


(** ** The loop over the files *)

Lemma for_each_app {A} (body : A → M unit) (l1 l2 : list A) w :
  for_each body (l1 ++ l2) w
  = match for_each body l1 w with
    | (w1, Ok _) => for_each body l2 w1
    | (w1, Raise e) => (w1, Raise e)
    end.
Proof.
  revert w. induction l1 as [|x l1 IH]; intros w; [done|].
  simpl. unfold mbind. destruct (body x w) as [w1 [[]|e]]; [apply IH|done].
Qed.

Lemma for_wav_files_frame out_dir mean var use_gpu gpu_id truncate_minutes
    wav_files w w' r :
  for_wav_files out_dir mean var use_gpu gpu_id truncate_minutes wav_files w
    = (w', r) →
  scratch w' = scratch w ∧ dirs w' = dirs w ∧
  ∀ p, (∀ wav, wav ∈ wav_files → p ≠ output_path out_dir wav) →
       files w' !! p = files w !! p.
Proof.
  unfold for_wav_files. revert w.
  induction wav_files as [|wav wav_files IH]; intros w; simpl.
  - by intros [= <- <-].
  - unfold mbind.
    destruct (process_file _ _ _ _ _ _ wav w) as [w1 r1] eqn:Hwav.
    apply process_file_cases in Hwav as (Hs1 & Hd1 & Hf1 & _).
    assert (∀ p, (∀ wav', wav' ∈ wav :: wav_files →
                          p ≠ output_path out_dir wav') →
                 files w1 !! p = files w !! p) as Hframe1.
    { intros p Hp. destruct Hf1 as [->|(data_se & _ & ->)]; [done|].
      apply lookup_insert_ne, not_eq_sym, Hp. by left. }
    destruct r1 as [[]|e].
    + intros Hrest. apply IH in Hrest as (Hs & Hd & Hf).
      split_and!; try congruence.
      intros p Hp. rewrite Hf, Hframe1; [done|done|].
      intros wav' Hin. apply Hp. by right.
    + intros [= <- <-]. split_and!; try done.
Qed.

Lemma main_denoising_unfold wav_files out_dir use_gpu gpu_id
    truncate_minutes w :
  main_denoising wav_files out_dir use_gpu gpu_id truncate_minutes w
  = match stats_of (files w !! GLOBAL_MEAN_VAR_MATF) with
    | Ok stats =>
        for_wav_files out_dir stats.1 stats.2 use_gpu gpu_id truncate_minutes
          wav_files
          (log_event (EvLoadmat GLOBAL_MEAN_VAR_MATF)
             (after_makedirs out_dir w))
    | Raise e =>
        (log_event (EvLoadmat GLOBAL_MEAN_VAR_MATF)
           (after_makedirs out_dir w), Raise e)
    end.
Proof.
  unfold main_denoising, stats_of, after_makedirs, os_path_exists,
    sio_loadmat, os_makedirs, getitem, mbind, emit, mret, mraise.
  fold (path_exists out_dir w).
  destruct (path_exists out_dir w); simpl;
    (destruct (mat_vars (files w !! GLOBAL_MEAN_VAR_MATF)) as [vars|e];
       simpl; [|done]);
    (destruct (assoc "global_mean" vars) as [mean|]; [|done]);
    by destruct (assoc "global_var" vars).
Qed.

Lemma after_makedirs_state out_dir w :
  files (after_makedirs out_dir w) = files w ∧
  scratch (after_makedirs out_dir w) = scratch w.
Proof. unfold after_makedirs. by destruct (path_exists out_dir w). Qed.

(** X1: [main_denoising] leaves no scratch directory behind, whatever the
    batch and however it ends: the scratch directories after the call are
    those from before it. *)
Theorem main_denoising_leaves_no_scratch (wav_files : list string)
    (out_dir : string) (use_gpu : bool) (gpu_id : Z) (truncate_minutes : Q)
    w :
  scratch
    (main_denoising wav_files out_dir use_gpu gpu_id truncate_minutes w).1
  = scratch w.
Proof.
  rewrite main_denoising_unfold.
  destruct (after_makedirs_state out_dir w) as [_ Hs].
  destruct (stats_of _) as [stats|e]; [|done].
  destruct (for_wav_files _ _ _ _ _ _ _ _) as [w' r] eqn:Hrun.
  apply for_wav_files_frame in Hrun as (Hs' & _).
  simpl. rewrite Hs'. simpl. exact Hs.
Qed.


(** X3: when the statistics cannot be loaded, [main_denoising] raises
    before it reads any input: [IOError] when the file is missing,
    [KeyError] when it is a [.mat] file without [global_mean] or
    [global_var]. No file changes, but the output directory has already been
    made if it did not exist. *)
Theorem statistics_error_precedes_files (wav_files : list string)
    (out_dir : string) (use_gpu : bool) (gpu_id : Z) (truncate_minutes : Q)
    w (e : exn) :
  stats_of (files w !! GLOBAL_MEAN_VAR_MATF) = Raise e →
  ∃ w',
    main_denoising wav_files out_dir use_gpu gpu_id truncate_minutes w
      = (w', Raise e) ∧
    trace w'
      = trace w
        ++ (if path_exists out_dir w then [] else [EvMakedirs out_dir])
        ++ [EvLoadmat GLOBAL_MEAN_VAR_MATF] ∧
    files w' = files w ∧
    (path_exists out_dir w = false → out_dir ∈ dirs w') ∧
    (files w !! GLOBAL_MEAN_VAR_MATF = None → e = IOError) ∧
    (∀ vars, files w !! GLOBAL_MEAN_VAR_MATF = Some (MatFile vars) →
             e = KeyError ∧
             (assoc "global_mean" vars = None
              ∨ assoc "global_var" vars = None)).
Proof.
  intros Hstats. rewrite main_denoising_unfold, Hstats.
  eexists. split; [done|]. unfold after_makedirs.
  split_and!.
  - destruct (path_exists out_dir w); simpl; [done|].
    by rewrite <-app_assoc.
  - by destruct (path_exists out_dir w).
  - intros ->. simpl. set_solver.
  - intros Hnone. rewrite Hnone in Hstats. by injection Hstats.
  - intros vars Hmat. rewrite Hmat in Hstats. unfold stats_of in Hstats.
    simpl in Hstats.
    destruct (assoc "global_mean" vars); [|by injection Hstats as <-; auto].
    destruct (assoc "global_var" vars); [done|].
    injection Hstats as <-; auto.
Qed.


(** X4: a batch in which every file has another sample rate than [SR] ends
    without an exception and without writing anything; what it does, after
    the statistics are loaded, is read each file and print its skip line,
    in the order of the batch. *)
Theorem batch_of_rejected_files (wav_files : list string) (out_dir : string)
    (use_gpu : bool) (gpu_id : Z) (truncate_minutes : Q) w
    (stats : ndarray cell * ndarray cell) :
  stats_of (files w !! GLOBAL_MEAN_VAR_MATF) = Ok stats →
  Forall (λ wav, ∃ rate wav_data,
            files w !! wav = Some (WavFile rate wav_data) ∧ rate ≠ SR)
    wav_files →
  ∃ w',
    main_denoising wav_files out_dir use_gpu gpu_id truncate_minutes w
      = (w', Ok tt) ∧
    files w' = files w ∧
    trace w'
      = trace w
        ++ (if path_exists out_dir w then [] else [EvMakedirs out_dir])
        ++ [EvLoadmat GLOBAL_MEAN_VAR_MATF]
        ++ concat (map (λ wav, [EvWavRead wav; EvPrint (skip_message wav)])
                     wav_files).
Proof.
  intros Hstats Hall. rewrite main_denoising_unfold, Hstats.
  set (w1 := log_event _ (after_makedirs out_dir w)).
  assert (files w1 = files w) as Hf1
    by (subst w1; simpl; apply after_makedirs_state).
  assert (trace w1 = trace w
            ++ (if path_exists out_dir w then [] else [EvMakedirs out_dir])
            ++ [EvLoadmat GLOBAL_MEAN_VAR_MATF]) as Ht1.
  { subst w1. unfold after_makedirs.
    destruct (path_exists out_dir w); simpl; [done|]. by rewrite <-app_assoc. }
  rewrite <-Hf1, app_assoc, app_assoc, <-(app_assoc (trace w)), <-Ht1.
  rewrite <-Hf1 in Hall. clearbody w1. clear Hf1 Ht1 Hstats.
  unfold for_wav_files. revert w1 Hall.
  induction wav_files as [|wav wav_files IH]; intros w1 Hall.
  { eexists. split; [done|]. simpl. by rewrite app_nil_r. }
  apply Forall_cons in Hall as [(rate & wav_data & Hfile & Hrate) Hall].
  simpl. unfold mbind.
  rewrite process_file_rejected with (rate := rate) (wav_data := wav_data)
    by done.
  destruct (IH (log_event (EvPrint (skip_message wav))
                  (log_event (EvWavRead wav) w1)) Hall)
    as (w' & Hrun & Hf & Ht).
  exists w'. split; [done|]. split; [done|].
  rewrite Ht. simpl. by rewrite <-!app_assoc.
Qed.

(** X5: an input that cannot be read ends the batch: [wav_io.read] raises
    ([IOError] for a missing file, [ValueError] for a file that is no WAV
    file), nothing catches it and the files after it are not even read.
    Nothing is written. *)
Theorem unreadable_input_aborts_batch (out_dir : string)
    (mean var : ndarray cell) (use_gpu : bool) (gpu_id : Z)
    (truncate_minutes : Q) (wav : string) (rest : list string) w :
  (∀ rate wav_data, files w !! wav ≠ Some (WavFile rate wav_data)) →
  ∃ w',
    for_wav_files out_dir mean var use_gpu gpu_id truncate_minutes
      (wav :: rest) w
    = (w', Raise (match files w !! wav with
                  | Some _ => ValueError
                  | None => IOError
                  end)) ∧
    trace w' = trace w ++ [EvWavRead wav] ∧
    files w' = files w ∧ scratch w' = scratch w.
Proof.
  intros Hfile. exists (log_event (EvWavRead wav) w). split; [|done].
  apply for_each_raise. by apply process_file_unreadable.
Qed.

(** X6: nothing is rolled back. When a file of the batch raises, the batch
    ends with that exception, and the outputs of the files before it are
    what they were when the failing file was reached. *)
Theorem outputs_before_failure_persist (out_dir : string)
    (mean var : ndarray cell) (use_gpu : bool) (gpu_id : Z)
    (truncate_minutes : Q) (before : list string) (wav : string)
    (rest : list string) w w1 w2 (e : exn) :
  for_wav_files out_dir mean var use_gpu gpu_id truncate_minutes before w
    = (w1, Ok tt) →
  process_file out_dir mean var use_gpu gpu_id truncate_minutes wav w1
    = (w2, Raise e) →
  for_wav_files out_dir mean var use_gpu gpu_id truncate_minutes
    (before ++ wav :: rest) w = (w2, Raise e) ∧
  files w2 = files w1 ∧ scratch w2 = scratch w.
Proof.
  intros Hbefore Hwav. unfold for_wav_files in *.
  rewrite for_each_app, Hbefore.
  split; [by apply for_each_raise|].
  apply process_file_cases in Hwav as (Hs & _ & _ & Hf).
  split; [by eapply Hf|].
  apply for_wav_files_frame in Hbefore as (Hs1 & _). congruence.
Qed.

(** X7: two inputs with the same base name share one output path. When
    both are processed, the second one accepted, the file at that path is
    the enhanced waveform of the second, and it is the only file the two
    runs have changed. *)
Theorem same_basename_overwrites (out_dir : string) (mean var : ndarray cell)
    (use_gpu : bool) (gpu_id : Z) (truncate_minutes : Q)
    (wav1 wav2 : string) w w1 w2 (wav_data normed : list sample) :
  os_path_basename wav1 = os_path_basename wav2 →
  process_file out_dir mean var use_gpu gpu_id truncate_minutes wav1 w
    = (w1, Ok tt) →
  files w1 !! wav2 = Some (WavFile SR wav_data) →
  peak_normalization wav_data = Ok normed →
  process_file out_dir mean var use_gpu gpu_id truncate_minutes wav2 w1
    = (w2, Ok tt) →
  output_path out_dir wav1 = output_path out_dir wav2 ∧
  ∃ chunks outs,
    loop_chunks normed truncate_minutes SR = Ok chunks ∧
    Forall2 chunk_output chunks outs ∧
    files w2
    = <[output_path out_dir wav2 := WavFile SR (concat outs)]> (files w).
Proof.
  intros Hbn Hrun1 Hfile Hnorm Hrun2.
  assert (output_path out_dir wav1 = output_path out_dir wav2) as Hpath
    by (unfold output_path; by rewrite Hbn).
  split; [done|].
  apply process_file_cases in Hrun1 as (_ & _ & Hf1 & _).
  rewrite process_file_accepted with (wav_data := wav_data) in Hrun2 by done.
  rewrite Hnorm in Hrun2.
  apply denoise_file_run in Hrun2
    as (_ & _ & chunks & outs & Hchunks & _ & _ & Houts & Hf2).
  exists chunks, outs. split_and!; try done.
  simpl in Hf2. fold (output_path out_dir wav2) in Hf2. rewrite Hf2.
  destruct Hf1 as [->|(data_se & _ & ->)]; [done|].
  rewrite Hpath. apply insert_insert_eq.
Qed.


(** ** The path of the output *)

Lemma append_cons (c : Ascii.ascii) (a b : string) :
  String c a +:+ b = String c (a +:+ b).
Proof. reflexivity. Qed.

Lemma append_snoc (a b : string) (c : Ascii.ascii) :
  (a +:+ String c EmptyString) +:+ b = a +:+ String c b.
Proof.
  induction a as [|c' a IH]; [reflexivity|].
  by rewrite !append_cons, IH.
Qed.

Lemma basename_go_app (acc x y : string) :
  basename_go acc (x +:+ y) = basename_go (basename_go acc x) y.
Proof.
  revert acc. induction x as [|c x IH]; intros acc; [reflexivity|].
  rewrite append_cons. simpl. by destruct (Ascii.eqb c slash).
Qed.

Lemma basename_go_no_slash (acc y : string) :
  no_slash y = true → basename_go acc y = acc +:+ y.
Proof.
  revert acc. induction y as [|c y IH]; intros acc Hy; simpl in *.
  - induction acc as [|c' acc IHacc]; [done|].
    by rewrite append_cons, <-IHacc.
  - apply andb_prop in Hy as [Hc Hy].
    destruct (Ascii.eqb c slash); [done|].
    by rewrite IH, append_snoc.
Qed.

Lemma basename_go_ends_with_slash (acc a : string) :
  ends_with_slash a = true → basename_go acc a = EmptyString.
Proof.
  revert acc. induction a as [|c a IH]; intros acc Ha; [done|].
  simpl in *. destruct a as [|c' a'].
  - by rewrite Ha.
  - destruct (Ascii.eqb c slash); by apply IH.
Qed.

Lemma no_slash_snoc (a : string) (c : Ascii.ascii) :
  no_slash a = true → Ascii.eqb c slash = false →
  no_slash (a +:+ String c EmptyString) = true.
Proof.
  intros Ha Hc. induction a as [|c' a IH]; simpl in *.
  - by rewrite Hc.
  - apply andb_prop in Ha as [Hc' Ha]. by rewrite Hc', IH.
Qed.

Lemma no_slash_basename_go (acc p : string) :
  no_slash acc = true → no_slash (basename_go acc p) = true.
Proof.
  revert acc. induction p as [|c p IH]; intros acc Hacc; [done|].
  simpl. destruct (Ascii.eqb c slash) eqn:Hc; [by apply IH|].
  by apply IH, no_slash_snoc.
Qed.

Lemma ends_with_slash_snoc (a : string) :
  ends_with_slash (a +:+ String slash EmptyString) = true.
Proof.
  induction a as [|c a IH]; [reflexivity|].
  rewrite append_cons. simpl.
  destruct (a +:+ String slash EmptyString) eqn:Ha; [|done].
  by destruct a.
Qed.

(** [os.path.basename] undoes [os.path.join] with a name. *)
Lemma basename_join (d name : string) :
  no_slash name = true →
  os_path_basename (os_path_join d name) = name.
Proof.
  intros Hname. unfold os_path_basename.
  destruct name as [|c name].
  - unfold os_path_join. destruct d as [|c' d']; [done|].
    destruct (ends_with_slash (String c' d')) eqn:Hd.
    + by apply basename_go_ends_with_slash.
    + apply basename_go_ends_with_slash, ends_with_slash_snoc.
  - assert (Ascii.eqb c slash = false) as Hc.
    { simpl in Hname. by destruct (Ascii.eqb c slash). }
    rewrite os_path_join_relative by done.
    rewrite basename_go_app.
    assert (basename_go EmptyString
              match d with
              | EmptyString => EmptyString
              | String _ _ =>
                  if ends_with_slash d then d
                  else d +:+ String slash EmptyString
              end = EmptyString) as ->.
    { destruct d as [|c' d']; [done|].
      destruct (ends_with_slash (String c' d')) eqn:Hd.
      - by apply basename_go_ends_with_slash.
      - apply basename_go_ends_with_slash, ends_with_slash_snoc. }
    by rewrite basename_go_no_slash.
Qed.

(** X8: the output keeps the base name of the input, for every input path
    and every output directory. *)
Theorem output_keeps_basename (out_dir wav : string) :
  os_path_basename (output_path out_dir wav) = os_path_basename wav.
Proof.
  unfold output_path. apply basename_join.
  unfold os_path_basename. by apply no_slash_basename_go.
Qed.

(** X9: when the output directory is the directory the input was named
    in, the output path is the input path: a file that is processed to the
    end is replaced by its enhanced waveform. *)
Theorem input_overwritten_in_place (d name : string)
    (mean var : ndarray cell) (use_gpu : bool) (gpu_id : Z)
    (truncate_minutes : Q) w w' (wav_data normed : list sample) :
  no_slash name = true →
  files w !! os_path_join d name = Some (WavFile SR wav_data) →
  peak_normalization wav_data = Ok normed →
  process_file d mean var use_gpu gpu_id truncate_minutes
    (os_path_join d name) w = (w', Ok tt) →
  output_path d (os_path_join d name) = os_path_join d name ∧
  ∃ chunks outs,
    loop_chunks normed truncate_minutes SR = Ok chunks ∧
    Forall2 chunk_output chunks outs ∧
    files w'
    = <[os_path_join d name := WavFile SR (concat outs)]> (files w).
Proof.
  intros Hname Hfile Hnorm Hrun.
  assert (output_path d (os_path_join d name) = os_path_join d name) as Hpath
    by (unfold output_path; by rewrite basename_join).
  split; [done|].
  rewrite process_file_accepted with (wav_data := wav_data) in Hrun by done.
  rewrite Hnorm in Hrun.
  apply denoise_file_run in Hrun
    as (_ & _ & chunks & outs & Hchunks & _ & _ & Houts & Hf).
  exists chunks, outs. split_and!; try done.
  simpl in Hf. fold (output_path d (os_path_join d name)) in Hf.
  by rewrite Hpath in Hf.
Qed.


(** ** The calls of a file that is processed to the end *)

Lemma chunk_script_calls d wav wav_data chunk_length total_chunks mean var
    use_gpu gpu_id data_se i :
  (chunk_script d wav wav_data chunk_length total_chunks mean var use_gpu
     gpu_id data_se i).2
  = (chunk_script d wav wav_data chunk_length total_chunks mean var use_gpu
       gpu_id [] i).2.
Proof. unfold chunk_script. by case_match. Qed.

Lemma for_acc_scripts wav wav_data chunk_length total_chunks mean var
    use_gpu gpu_id idx data_se w w' data_se' :
  for_acc
    (chunk_body wav wav_data chunk_length total_chunks mean var use_gpu
       gpu_id) idx data_se w = (w', Ok data_se') →
  let script := chunk_script (fresh (dom (scratch w))) wav wav_data
                  chunk_length total_chunks mean var use_gpu gpu_id in
  trace w' = trace w ++ concat (map (λ i, (script [] i).2) idx) ∧
  Forall (λ i, ∃ ds0 ds1, (script ds0 i).1 = Ok ds1) idx.
Proof.
  revert data_se w. induction idx as [|i idx IH]; intros data_se w; simpl.
  - intros [= <- <-]. split; [by rewrite app_nil_r|done].
  - unfold mbind.
    destruct (chunk_body_script wav wav_data chunk_length total_chunks mean
      var use_gpu gpu_id data_se i w) as (w1 & Hrun & Ht & Hs & _).
    rewrite Hrun.
    destruct (chunk_script _ _ _ _ _ _ _ _ _ data_se i).1
      as [ds1|e] eqn:Hres; [|done].
    intros Hrest. apply IH in Hrest as [Htrace Hall].
    rewrite Hs in Htrace, Hall. split.
    + rewrite Htrace, Ht, chunk_script_calls. by rewrite <-app_assoc.
    + constructor; [by exists data_se, ds1|done].
Qed.

Lemma denoise_file_calls out_dir mean var use_gpu gpu_id truncate_minutes
    wav rate wav_data w w' :
  denoise_file out_dir mean var use_gpu gpu_id truncate_minutes wav rate
    wav_data w = (w', Ok tt) →
  let chunk_length := chunk_length_of truncate_minutes rate in
  ∃ total_chunks outs,
    py_ceil_div (Z.of_nat (length wav_data)) chunk_length = Ok total_chunks ∧
    let script := chunk_script (fresh (dom (scratch w))) wav wav_data
                    chunk_length total_chunks mean var use_gpu gpu_id in
    Forall2 chunk_output
      (map (chunk_at wav_data chunk_length) (seqZ 1 total_chunks)) outs ∧
    Forall (λ i, ∃ ds0 ds1, (script ds0 i).1 = Ok ds1)
      (seqZ 1 total_chunks) ∧
    trace w'
    = trace w
      ++ concat (map (λ i, (script [] i).2) (seqZ 1 total_chunks))
      ++ [EvWavWrite (output_path out_dir wav) SR (concat outs);
          EvPrint (finished_message wav)].
Proof.
  intros Hrun chunk_length. unfold denoise_file in Hrun.
  fold chunk_length in Hrun.
  unfold mbind at 1 in Hrun. unfold lift at 1 in Hrun.
  destruct (py_ceil_div (Z.of_nat (length wav_data)) chunk_length)
    as [total|e] eqn:Hdiv; [|done].
  unfold mbind at 1 in Hrun.
  destruct (for_acc _ (seqZ 1 total) [] w) as [w1 [data_se|e]] eqn:Hloop;
    [|done].
  pose proof (for_acc_scripts _ _ _ _ _ _ _ _ _ _ _ _ _ Hloop)
    as [Htrace Hall].
  apply for_acc_chunks in Hloop as (_ & _ & _ & outs & -> & Houts).
  simpl in Houts.
  unfold mbind, lift, np_concatenate, wav_io_write, print, emit in Hrun.
  destruct outs as [|out outs]; [done|].
  injection Hrun as <-. exists total, (out :: outs).
  split_and!; try done. simpl. rewrite Htrace.
  by rewrite <-!app_assoc.
Qed.

Lemma enhance_script_prints d temp mean var use_gpu gpu_id :
  omap printed (enhance_script d temp mean var use_gpu gpu_id).2 = [].
Proof.
  unfold enhance_script.
  destruct (wav2logspec temp) as [lps|e]; [|done].
  destruct (mvn lps mean var) as [normed|e]; [|done].
  by destruct (result_bind _ _).
Qed.


Lemma chunk_script_prints d wav wav_data chunk_length total_chunks mean var
    use_gpu gpu_id data_se i :
  omap printed
    (chunk_script d wav wav_data chunk_length total_chunks mean var use_gpu
       gpu_id data_se i).2
  = [segment_message wav i total_chunks].
Proof.
  unfold chunk_script. case_match; [done|]. simpl.
  by rewrite omap_app, enhance_script_prints.
Qed.



Lemma omap_concat_map {A B C} (f : B → option C) (g : A → list B)
    (l : list A) :
  omap f (concat (map g l)) = concat (map (λ x, omap f (g x)) l).
Proof.
  induction l as [|x l IH]; [done|]. simpl. by rewrite omap_app, IH.
Qed.

Lemma process_file_calls out_dir mean var use_gpu gpu_id truncate_minutes
    wav w w' wav_data normed :
  files w !! wav = Some (WavFile SR wav_data) →
  peak_normalization wav_data = Ok normed →
  process_file out_dir mean var use_gpu gpu_id truncate_minutes wav w
    = (w', Ok tt) →
  let chunk_length := chunk_length_of truncate_minutes SR in
  ∃ total_chunks outs,
    py_ceil_div (Z.of_nat (length normed)) chunk_length = Ok total_chunks ∧
    let script := chunk_script (fresh (dom (scratch w))) wav normed
                    chunk_length total_chunks mean var use_gpu gpu_id in
    Forall2 chunk_output
      (map (chunk_at normed chunk_length) (seqZ 1 total_chunks)) outs ∧
    Forall (λ i, ∃ ds0 ds1, (script ds0 i).1 = Ok ds1)
      (seqZ 1 total_chunks) ∧
    trace w'
    = trace w
      ++ [EvWavRead wav; EvPeakNormalization wav_data]
      ++ concat (map (λ i, (script [] i).2) (seqZ 1 total_chunks))
      ++ [EvWavWrite (output_path out_dir wav) SR (concat outs);
          EvPrint (finished_message wav)].
Proof.
  intros Hfile Hnorm Hrun chunk_length.
  rewrite process_file_accepted with (wav_data := wav_data) in Hrun by done.
  rewrite Hnorm in Hrun.
  apply denoise_file_calls in Hrun
    as (total & outs & Hdiv & Houts & Hall & Htrace).
  exists total, outs. split_and!; try done.
  rewrite Htrace. simpl. by rewrite <-!app_assoc.
Qed.

(** X10: a file that is processed to the end prints one progress line per
    chunk, numbered from 1 to the number of chunks in order, each with that
    number of chunks, and then the line that it is finished; it prints
    nothing else. *)
Theorem progress_lines_of_a_file (out_dir : string) (mean var : ndarray cell)
    (use_gpu : bool) (gpu_id : Z) (truncate_minutes : Q) (wav : string)
    w w' (wav_data normed : list sample) :
  files w !! wav = Some (WavFile SR wav_data) →
  peak_normalization wav_data = Ok normed →
  process_file out_dir mean var use_gpu gpu_id truncate_minutes wav w
    = (w', Ok tt) →
  ∃ total_chunks calls,
    py_ceil_div (Z.of_nat (length normed))
      (chunk_length_of truncate_minutes SR) = Ok total_chunks ∧
    trace w' = trace w ++ calls ∧
    omap printed calls
    = map (λ i, segment_message wav i total_chunks) (seqZ 1 total_chunks)
      ++ [finished_message wav].
Proof.
  intros Hfile Hnorm Hrun.
  destruct (process_file_calls _ _ _ _ _ _ _ _ _ _ _ Hfile Hnorm Hrun)
    as (total & outs & Hdiv & _ & _ & Htrace).
  eexists total, _. split; [done|]. split; [exact Htrace|].
  simpl. rewrite omap_app, omap_concat_map. simpl. f_equal.
  clear Htrace. generalize (seqZ 1 total). intros idx.
  induction idx as [|i idx IH]; [done|].
  simpl. by rewrite chunk_script_prints, IH.
Qed.



(** ** The edges of [truncate_minutes] *)

Lemma Forall2_chunk_output_short (chunks outs : list (list sample)) :
  Forall (λ chunk, Z.of_nat (length chunk) < WL2) chunks →
  Forall2 chunk_output chunks outs → outs = chunks.
Proof.
  intros Hshort Houts. induction Houts as [|chunk out chunks outs Hout _ IH].
  { done. }
  apply Forall_cons in Hshort as [Hc Hshort]. rewrite IH by done.
  f_equal. unfold chunk_output in Hout.
  destruct (Z.ltb_spec (Z.of_nat (length chunk)) WL2); [done|lia].
Qed.

(** X12: with a [chunk_length] below [WL2] nothing is enhanced. Every
    accepted file with samples is processed to the end, the waveform
    written is the peak-normalized input itself, and the calls are, per
    chunk, [mkdtemp], the progress line and [rmtree]: no feature extraction,
    no worker, no synthesis. *)
Theorem chunk_length_below_window_passes_file_through (out_dir : string)
    (mean var : ndarray cell) (use_gpu : bool) (gpu_id : Z)
    (truncate_minutes : Q) (wav : string) w
    (wav_data normed : list sample) :
  files w !! wav = Some (WavFile SR wav_data) →
  peak_normalization wav_data = Ok normed →
  normed ≠ [] →
  1 ≤ chunk_length_of truncate_minutes SR < WL2 →
  ∃ w' total_chunks,
    process_file out_dir mean var use_gpu gpu_id truncate_minutes wav w
      = (w', Ok tt) ∧
    py_ceil_div (Z.of_nat (length normed))
      (chunk_length_of truncate_minutes SR) = Ok total_chunks ∧
    files w' = <[output_path out_dir wav := WavFile SR normed]> (files w) ∧
    trace w'
    = trace w
      ++ [EvWavRead wav; EvPeakNormalization wav_data]
      ++ concat (map (λ i, short_chunk_calls (fresh (dom (scratch w))) wav i
                             total_chunks)
                   (seqZ 1 total_chunks))
      ++ [EvWavWrite (output_path out_dir wav) SR normed;
          EvPrint (finished_message wav)].
Proof.
  intros Hfile Hnorm Hne Hcl.
  set (chunk_length := chunk_length_of truncate_minutes SR) in *.
  assert (∀ i, 1 ≤ i →
            Z.of_nat (length (chunk_at normed chunk_length i)) < WL2)
    as Hshort.
  { intros i Hi. rewrite length_chunk_at by lia. lia. }
  destruct (process_file_succeeds out_dir mean var use_gpu gpu_id
    truncate_minutes wav w wav_data normed Hfile Hnorm Hne) as [w' Hrun].
  { fold chunk_length. lia. }
  { intros i Hi Hlong. fold chunk_length in Hlong.
    specialize (Hshort i Hi). lia. }
  destruct (process_file_calls _ _ _ _ _ _ _ _ _ _ _ Hfile Hnorm Hrun)
    as (total & outs & Hdiv & Houts & _ & Htrace).
  fold chunk_length in Hdiv, Houts, Htrace.
  assert (Forall (λ chunk, Z.of_nat (length chunk) < WL2)
            (map (chunk_at normed chunk_length) (seqZ 1 total))) as Hall.
  { apply Forall_fmap, Forall_seqZ. intros i Hi. apply Hshort. lia. }
  apply Forall2_chunk_output_short in Houts as ->; [|done].
  assert (concat (map (chunk_at normed chunk_length) (seqZ 1 total))
          = normed) as Hconcat.
  { apply concat_chunks; [lia|].
    unfold py_ceil_div in Hdiv.
    destruct (Z.eqb_spec chunk_length 0); [done|]. injection Hdiv as <-.
    pose proof (ceil_div_spec (Z.of_nat (length normed)) chunk_length).
    lia. }
  rewrite Hconcat in Htrace.
  exists w', total. split_and!; try done.
  - apply process_file_cases in Hrun as Hcases.
    destruct Hcases as (_ & _ & Hf & _).
    assert (files w' !! output_path out_dir wav
            = Some (WavFile SR normed)) as Hout.
    { rewrite process_file_accepted with (wav_data := wav_data) in Hrun
        by done.
      rewrite Hnorm in Hrun.
      apply denoise_file_run in Hrun
        as (_ & _ & chunks & outs & Hchunks & _ & Hc & Ho & Hfiles).
      unfold loop_chunks in Hchunks. fold chunk_length in Hchunks.
      rewrite Hdiv in Hchunks. injection Hchunks as <-.
      apply Forall2_chunk_output_short in Ho as ->; [|done].
      rewrite Hfiles, Hc. apply lookup_insert_eq. }
    destruct Hf as [Hf|(data_se & _ & Hf)]; rewrite Hf in Hout |- *.
    + symmetry. by apply insert_id.
    + rewrite lookup_insert_eq in Hout. by injection Hout as ->.
  - assert (map (λ i, (chunk_script (fresh (dom (scratch w))) wav normed
                         chunk_length total mean var use_gpu gpu_id [] i).2)
              (seqZ 1 total)
            = map (λ i, short_chunk_calls (fresh (dom (scratch w))) wav i
                          total) (seqZ 1 total)) as Hmap.
    { apply map_ext_in. intros i Hi%list_elem_of_In%elem_of_seqZ.
      unfold chunk_script, short_chunk_calls.
      destruct (Z.ltb_spec
        (Z.of_nat (length (chunk_at normed chunk_length i))) WL2)
        as [_|Hlong]; [done|].
      specialize (Hshort i ltac:(lia)). lia. }
    by rewrite Htrace, Hmap.
Qed.

(** X13: with a [chunk_length] of 0 or less no accepted file is processed:
    line 84 raises [ZeroDivisionError] when it is 0, and when it is
    negative the number of chunks is not positive, no chunk is visited and
    [np.concatenate] raises [ValueError]. Nothing is written. *)
Theorem nonpositive_chunk_length_raises (out_dir : string)
    (mean var : ndarray cell) (use_gpu : bool) (gpu_id : Z)
    (truncate_minutes : Q) (wav : string) w
    (wav_data normed : list sample) :
  files w !! wav = Some (WavFile SR wav_data) →
  peak_normalization wav_data = Ok normed →
  chunk_length_of truncate_minutes SR ≤ 0 →
  ∃ w',
    process_file out_dir mean var use_gpu gpu_id truncate_minutes wav w
      = (w', Raise (if chunk_length_of truncate_minutes SR =? 0
                    then ZeroDivisionError else ValueError)) ∧
    trace w' = trace w ++ [EvWavRead wav; EvPeakNormalization wav_data] ∧
    files w' = files w ∧ scratch w' = scratch w.
Proof.
  intros Hfile Hnorm Hcl.
  rewrite process_file_accepted with (wav_data := wav_data) by done.
  rewrite Hnorm. unfold denoise_file, py_ceil_div.
  set (chunk_length := chunk_length_of truncate_minutes SR) in *.
  unfold mbind at 1. unfold lift at 1.
  destruct (Z.eqb_spec chunk_length 0) as [Hz|Hnz].
  - eexists. split; [done|]. simpl. by rewrite <-app_assoc.
  - assert (Z.opp (Z.div (Z.opp (Z.of_nat (length normed))) chunk_length)
            ≤ 0) as Htotal.
    { assert (Z.div (Z.opp (Z.of_nat (length normed))) chunk_length
              = Z.div (Z.of_nat (length normed)) (Z.opp chunk_length))
        as ->.
      { rewrite <-(Z.div_opp_opp (Z.of_nat (length normed))
                     (Z.opp chunk_length)) by lia.
        by rewrite Z.opp_involutive. }
      pose proof (Z.div_pos (Z.of_nat (length normed)) (- chunk_length)
        ltac:(lia) ltac:(lia)). lia. }
    rewrite seqZ_nil by done. simpl.
    eexists. split; [done|]. simpl. by rewrite <-app_assoc.
Qed.

(** X14: a waveform with samples that is not longer than [chunk_length] is
    one chunk, the waveform itself. *)
Theorem short_file_is_one_chunk {A} (wav_data : list A)
    (truncate_minutes : Q) (rate : Z) :
  wav_data ≠ [] →
  Z.of_nat (length wav_data) ≤ chunk_length_of truncate_minutes rate →
  py_ceil_div (Z.of_nat (length wav_data))
    (chunk_length_of truncate_minutes rate) = Ok 1 ∧
  loop_chunks wav_data truncate_minutes rate = Ok [wav_data].
Proof.
  intros Hne Hlen.
  set (chunk_length := chunk_length_of truncate_minutes rate) in *.
  assert (0 < Z.of_nat (length wav_data)) as Hpos
    by (destruct wav_data; [done|simpl; lia]).
  assert (py_ceil_div (Z.of_nat (length wav_data)) chunk_length = Ok 1)
    as Hdiv.
  { unfold py_ceil_div. destruct (Z.eqb_spec chunk_length 0); [lia|].
    pose proof (ceil_div_spec (Z.of_nat (length wav_data)) chunk_length
      ltac:(lia)).
    f_equal. nia. }
  split; [done|]. unfold loop_chunks. fold chunk_length. rewrite Hdiv.
  simpl. do 2 f_equal. change (seqZ 1 1) with [1]. simpl. f_equal.
  rewrite chunk_at_take_drop by lia. simpl. apply take_ge. lia.
Qed.


(** ** The worker: what it is given, and how its failures show *)



(** X16: a mask of one row is not rejected for its shape: line 137
    broadcasts it, and every frame of the features is masked with that one
    row. *)
Theorem single_row_mask_is_broadcast (lps irm : ndarray cell) :
  shape0 irm = 1%nat → shape1 irm = shape1 lps →
  ∃ masked,
    mask_lps lps irm = Ok masked ∧
    shape0 masked = shape0 lps ∧ shape1 masked = shape1 lps ∧
    ∀ i j, (i < shape0 lps)%nat → (j < shape1 lps)%nat →
      item masked i j
      = num_add (item lps i j) (num_log (item irm 0%nat j)).
Proof.
  intros H0 H1. unfold mask_lps, np_add, np_binop. simpl.
  rewrite H0, H1, broadcast_dim_one, broadcast_dim_same.
  eexists. split; [done|]. simpl. split_and!; try done.
  intros i j Hi Hj. rewrite (bidx_lt _ i), !(bidx_lt _ j) by done.
  reflexivity.
Qed.

(** X17: whenever an iteration of the loop over the chunks starts the
    worker, it passes the GPU switch and the GPU id that [main_denoising]
    was given and [NFREQS = 257], the index record of the directory this
    iteration made, and that directory as the place for the mask; the
    feature record was written before with sample period [SR] and
    parameter kind 9. *)
Theorem worker_arguments (wav : string) (wav_data : list sample)
    (chunk_length total_chunks : Z) (mean var : ndarray cell)
    (use_gpu : bool) (gpu_id : Z) (data_se : list (list sample)) (i : Z)
    w w' r calls scp_fn out_dir nfreqs g id seen :
  chunk_body wav wav_data chunk_length total_chunks mean var use_gpu gpu_id
    data_se i w = (w', r) →
  trace w' = trace w ++ calls →
  EvDecodeModel scp_fn out_dir nfreqs g id seen ∈ calls →
  nfreqs = 257%nat ∧ g = use_gpu ∧ id = gpu_id ∧
  scp_fn = os_path_join out_dir "noisy_normed_lps.scp" ∧
  calls !! 0%nat = Some (EvMkdtemp out_dir) ∧
  ∃ normed_noisy,
    calls !! 3%nat
    = Some (EvWriteHtk (os_path_join out_dir "noisy_normed_lps.htk")
              normed_noisy 16000 9).
Proof.
  intros Hrun Htrace Hin.
  destruct (chunk_body_events _ _ _ _ _ _ _ _ _ _ _ _ _ _ Hrun Htrace)
    as [->| ->].
  { repeat
      match goal with
      | Hin : _ ∈ _ :: _ |- _ => apply elem_of_cons in Hin as [?|Hin]
      | Hin : _ ∈ [] |- _ => by apply elem_of_nil in Hin
      end; discriminate. }
  set (d := fresh (dom (scratch w))) in *.
  set (temp := chunk_at wav_data chunk_length i) in *.
  unfold enhance_script in *.
  destruct (wav2logspec temp) as [lps|e]; simpl in *.
  2:{ repeat
      match goal with
      | Hin : _ ∈ _ :: _ |- _ => apply elem_of_cons in Hin as [?|Hin]
      | Hin : _ ∈ [] |- _ => by apply elem_of_nil in Hin
      end; discriminate. }
  destruct (mvn lps mean var) as [normed|e]; simpl in *.
  2:{ repeat
      match goal with
      | Hin : _ ∈ _ :: _ |- _ => apply elem_of_cons in Hin as [?|Hin]
      | Hin : _ ∈ [] |- _ => by apply elem_of_nil in Hin
      end; discriminate. }
  destruct (result_bind _ _); simpl in *; repeat
      match goal with
      | Hin : _ ∈ _ :: _ |- _ => apply elem_of_cons in Hin as [?|Hin]
      | Hin : _ ∈ _ ++ _ |- _ => apply elem_of_app in Hin as [Hin|Hin]
      | Hin : _ ∈ [] |- _ => by apply elem_of_nil in Hin
      end; try discriminate; simplify_eq; split_and!; try done;
    by exists normed.
Qed.




(** ** Statistics that do not fit, files that are processed to the end *)

Lemma mvn_raises (lps mean var : ndarray cell) (e : exn) :
  mvn lps mean var = Raise e → e = ValueError.
Proof.
  unfold mvn, np_sub, np_div, np_binop.
  destruct (broadcast_dim _ _); [destruct (broadcast_dim _ _)|]; simpl;
    try by intros [= <-].
  destruct (broadcast_dim _ _); [destruct (broadcast_dim _ _)|];
    by intros [= <-].
Qed.

(** X19: the shapes of the statistics are not looked at when they are
    loaded. Statistics that do not broadcast against the features of a
    chunk make line 113 raise [ValueError] for that chunk: the features
    were extracted, but no record is written, no worker started, and the
    scratch directory is removed. *)
Theorem unfit_statistics_raise_per_chunk (wav : string)
    (wav_data : list sample) (chunk_length total_chunks : Z)
    (mean var : ndarray cell) (use_gpu : bool) (gpu_id : Z)
    (data_se : list (list sample)) (i : Z) w (lps : ndarray cell)
    (e : exn) :
  WL2 ≤ Z.of_nat (length (chunk_at wav_data chunk_length i)) →
  wav2logspec (chunk_at wav_data chunk_length i) = Ok lps →
  mvn lps mean var = Raise e →
  ∃ w',
    chunk_body wav wav_data chunk_length total_chunks mean var use_gpu gpu_id
      data_se i w = (w', Raise ValueError) ∧
    trace w'
    = trace w
      ++ [EvMkdtemp (fresh (dom (scratch w)));
          EvPrint (segment_message wav i total_chunks);
          EvWav2logspec (chunk_at wav_data chunk_length i);
          EvRmtree (fresh (dom (scratch w)))] ∧
    scratch w' = scratch w ∧ files w' = files w.
Proof.
  intros Hlong Hlps Hmvn.
  destruct (chunk_body_script wav wav_data chunk_length total_chunks mean var
    use_gpu gpu_id data_se i w) as (w' & Hrun & Htrace & Hs & Hf & _).
  unfold chunk_script in Hrun, Htrace.
  destruct (Z.ltb_spec (Z.of_nat (length (chunk_at wav_data chunk_length i)))
    WL2) as [?|_]; [lia|].
  unfold enhance_script in Hrun, Htrace.
  rewrite Hlps, Hmvn in Hrun, Htrace. simpl in Hrun, Htrace.
  apply mvn_raises in Hmvn as ->.
  by exists w'.
Qed.

(** X20: an accepted file with samples is processed to the end, and its
    waveform written at the output path, whenever [chunk_length] is at
    least 1 and every chunk of at least [WL2] samples is enhanced without
    an exception; the waveform written is the concatenation of what the
    chunks contributed. *)
Theorem accepted_file_is_processed (out_dir : string)
    (mean var : ndarray cell) (use_gpu : bool) (gpu_id : Z)
    (truncate_minutes : Q) (wav : string) w
    (wav_data normed : list sample) :
  files w !! wav = Some (WavFile SR wav_data) →
  peak_normalization wav_data = Ok normed →
  normed ≠ [] →
  1 ≤ chunk_length_of truncate_minutes SR →
  (∀ i, 1 ≤ i →
     WL2 ≤ Z.of_nat
             (length (chunk_at normed (chunk_length_of truncate_minutes SR)
                        i)) →
     ∃ out, (enhance_script (fresh (dom (scratch w)))
               (chunk_at normed (chunk_length_of truncate_minutes SR) i)
               mean var use_gpu gpu_id).1 = Ok out) →
  ∃ w' chunks outs,
    process_file out_dir mean var use_gpu gpu_id truncate_minutes wav w
      = (w', Ok tt) ∧
    loop_chunks normed truncate_minutes SR = Ok chunks ∧
    Forall2 chunk_output chunks outs ∧
    files w'
    = <[output_path out_dir wav := WavFile SR (concat outs)]> (files w).
Proof.
  intros Hfile Hnorm Hne Hcl Hok.
  destruct (process_file_succeeds out_dir mean var use_gpu gpu_id
    truncate_minutes wav w wav_data normed Hfile Hnorm Hne Hcl Hok)
    as [w' Hrun].
  pose proof Hrun as Hrun'.
  rewrite process_file_accepted with (wav_data := wav_data) in Hrun' by done.
  rewrite Hnorm in Hrun'.
  apply denoise_file_run in Hrun'
    as (_ & _ & chunks & outs & Hchunks & _ & _ & Houts & Hfiles).
  by exists w', chunks, outs.
Qed.

(** X21: with a [chunk_length] of at least [WL2], only the last chunk of a
    file can go unenhanced: in a file that is processed to the end, what
    every chunk before the last contributes to the output is a result of
    the synthesis on that chunk. *)
Theorem only_last_chunk_can_pass_through (out_dir : string)
    (mean var : ndarray cell) (use_gpu : bool) (gpu_id : Z)
    (truncate_minutes : Q) (wav : string) w w'
    (wav_data normed : list sample) :
  WL2 ≤ chunk_length_of truncate_minutes SR →
  files w !! wav = Some (WavFile SR wav_data) →
  peak_normalization wav_data = Ok normed →
  process_file out_dir mean var use_gpu gpu_id truncate_minutes wav w
    = (w', Ok tt) →
  ∃ total_chunks outs,
    py_ceil_div (Z.of_nat (length normed))
      (chunk_length_of truncate_minutes SR) = Ok total_chunks ∧
    files w' !! output_path out_dir wav = Some (WavFile SR (concat outs)) ∧
    Z.of_nat (length outs) = total_chunks ∧
    ∀ i, 1 ≤ i < total_chunks →
      ∃ masked_lps out,
        outs !! Z.to_nat (i - 1) = Some out ∧
        logspec2wav masked_lps
          (chunk_at normed (chunk_length_of truncate_minutes SR) i) = Ok out.
Proof.
  intros Hcl Hfile Hnorm Hrun.
  set (chunk_length := chunk_length_of truncate_minutes SR) in *.
  assert (WL2 = 256) as HWL2 by reflexivity.
  pose proof Hrun as Hrun'.
  rewrite process_file_accepted with (wav_data := wav_data) in Hrun' by done.
  rewrite Hnorm in Hrun'.
  apply denoise_file_run in Hrun'
    as (_ & _ & chunks & outs & Hchunks & _ & _ & Houts & Hfiles).
  unfold loop_chunks in Hchunks. fold chunk_length in Hchunks.
  destruct (py_ceil_div (Z.of_nat (length normed)) chunk_length)
    as [total|e] eqn:Hdiv; [|done].
  simpl in Hchunks. injection Hchunks as <-.
  assert (0 ≤ total) as Htotal.
  { unfold py_ceil_div in Hdiv.
    destruct (Z.eqb_spec chunk_length 0); [done|]. injection Hdiv as <-.
    pose proof (ceil_div_spec (Z.of_nat (length normed)) chunk_length
      ltac:(lia)). nia. }
  exists total, outs. split_and!.
  - done.
  - rewrite Hfiles. apply lookup_insert_eq.
  - apply Forall2_length in Houts.
    rewrite length_map, length_seqZ in Houts. lia.
  - intros i Hi.
    assert (map (chunk_at normed chunk_length) (seqZ 1 total)
              !! Z.to_nat (i - 1)
            = Some (chunk_at normed chunk_length i)) as Hlook.
    { rewrite list_lookup_fmap, lookup_seqZ_lt by lia.
      simpl. do 2 f_equal. lia. }
    destruct (Forall2_lookup_l _ _ _ _ _ Houts Hlook) as (out & Hout & Hrel).
    unfold chunk_output in Hrel.
    assert (Z.of_nat (length (chunk_at normed chunk_length i))
            = chunk_length) as Hlen.
    { rewrite length_chunk_at by lia.
      unfold py_ceil_div in Hdiv.
      destruct (Z.eqb_spec chunk_length 0); [done|]. injection Hdiv as Hdiv.
      pose proof (ceil_div_spec (Z.of_nat (length normed)) chunk_length
        ltac:(lia)). rewrite Hdiv in *. nia. }
    destruct (Z.ltb_spec (Z.of_nat (length (chunk_at normed chunk_length i)))
      WL2) as [?|_]; [lia|].
    destruct Hrel as [masked Hm]. by exists masked, out.
Qed.

End Batch.

(** * The properties of the batch at work on the concrete installation *)


Lemma statistics_error_precedes_files_witness :
  stats_of (files empty_world !! @GLOBAL_MEAN_VAR_MATF Z npfloat demo_imports)
    = Raise IOError ∧
  ∃ w', demo_main ["in/a.wav"] empty_world = (w', Raise IOError) ∧
        trace w' = [EvMakedirs "out";
                    EvLoadmat "/opt/denoising/model/global_mvn_stats.mat"].
Proof.
  split; [reflexivity|].
  destruct (statistics_error_precedes_files (Imports0 := demo_imports)
              ["in/a.wav"] "out" true 0 (10 # 1) empty_world IOError eq_refl)
    as (w' & Hrun & Htrace & _).
  exists w'. split; [exact Hrun|exact Htrace].
Defined.

Lemma batch_of_rejected_files_witness :
  stats_of (files demo_world !! @GLOBAL_MEAN_VAR_MATF Z npfloat demo_imports)
    = Ok (demo_mean, demo_var) ∧
  Forall (λ wav, ∃ rate wav_data,
            files demo_world !! wav = Some (WavFile rate wav_data)
            ∧ rate ≠ SR) ["in/b.wav"; "in/b.wav"] ∧
  ∃ w', demo_main ["in/b.wav"; "in/b.wav"] demo_world = (w', Ok tt) ∧
        files w' = files demo_world.
Proof.
  assert (Forall (λ wav, ∃ rate wav_data,
            files demo_world !! wav = Some (WavFile rate wav_data)
            ∧ rate ≠ SR) ["in/b.wav"; "in/b.wav"]) as Hall.
  { repeat constructor; exists 8000, [1; 2; 3; 4];
      (split; [reflexivity|discriminate]). }
  split; [reflexivity|]. split; [exact Hall|].
  destruct (batch_of_rejected_files (Imports0 := demo_imports)
              ["in/b.wav"; "in/b.wav"] "out" true 0 (10 # 1) demo_world
              (demo_mean, demo_var) eq_refl Hall)
    as (w' & Hrun & Hfiles & _).
  exists w'. split; [exact Hrun|exact Hfiles].
Defined.

Lemma unreadable_input_aborts_batch_witness :
  (∀ rate wav_data,
     files demo_world !! "in/none.wav" ≠ Some (WavFile rate wav_data)) ∧
  ∃ w', demo_for_wav_files ["in/none.wav"; "in/a.wav"] demo_world
        = (w', Raise IOError) ∧
        trace w' = [EvWavRead "in/none.wav"].
Proof.
  assert (∀ rate wav_data,
            files demo_world !! "in/none.wav" ≠ Some (WavFile rate wav_data))
    as Hfile.
  { intros rate wav_data Heq. vm_compute in Heq. discriminate. }
  split; [exact Hfile|].
  destruct (unreadable_input_aborts_batch (Imports0 := demo_imports) "out"
              demo_mean demo_var true 0 (10 # 1) "in/none.wav" ["in/a.wav"]
              demo_world Hfile) as (w' & Hrun & Htrace & _).
  exists w'. split; [exact Hrun|exact Htrace].
Defined.

Lemma outputs_before_failure_persist_witness :
  demo_for_wav_files ["in/s.wav"] demo_world
    = ((demo_for_wav_files ["in/s.wav"] demo_world).1, Ok tt) ∧
  demo_process_file "in/c.wav" (demo_for_wav_files ["in/s.wav"] demo_world).1
    = ((demo_process_file "in/c.wav"
          (demo_for_wav_files ["in/s.wav"] demo_world).1).1,
       Raise ValueError) ∧
  ∃ w2,
    demo_for_wav_files (["in/s.wav"] ++ "in/c.wav" :: ["in/a.wav"]) demo_world
      = (w2, Raise ValueError) ∧
    files w2 !! "out/s.wav" = Some (WavFile SR [1; 2; 3; 4]).
Proof.
  assert (demo_for_wav_files ["in/s.wav"] demo_world
          = ((demo_for_wav_files ["in/s.wav"] demo_world).1, Ok tt)) as H1.
  { rewrite (surjective_pairing (demo_for_wav_files ["in/s.wav"] demo_world))
      at 1.
    f_equal; vm_compute; reflexivity. }
  assert (demo_process_file "in/c.wav"
            (demo_for_wav_files ["in/s.wav"] demo_world).1
          = ((demo_process_file "in/c.wav"
                (demo_for_wav_files ["in/s.wav"] demo_world).1).1,
             Raise ValueError)) as H2.
  { rewrite (surjective_pairing (demo_process_file "in/c.wav" _)) at 1.
    f_equal; vm_compute; reflexivity. }
  split; [exact H1|]. split; [exact H2|].
  destruct (outputs_before_failure_persist (Imports0 := demo_imports) "out"
              demo_mean demo_var true 0 (10 # 1) ["in/s.wav"] "in/c.wav"
              ["in/a.wav"] demo_world
              (demo_for_wav_files ["in/s.wav"] demo_world).1
              (demo_process_file "in/c.wav"
                 (demo_for_wav_files ["in/s.wav"] demo_world).1).1
              ValueError H1 H2)
    as (Hrun & Hfiles & _).
  eexists. split; [exact Hrun|].
  rewrite Hfiles. vm_compute. reflexivity.
Defined.

Lemma same_basename_overwrites_witness :
  os_path_basename "in/s.wav" = os_path_basename "other/s.wav" ∧
  demo_process_file "in/s.wav" demo_world2
    = ((demo_process_file "in/s.wav" demo_world2).1, Ok tt) ∧
  files (demo_process_file "in/s.wav" demo_world2).1 !! "other/s.wav"
    = Some (WavFile SR [5; 6; 7; 8]) ∧
  ∃ outs,
    Forall2 (@chunk_output Z npfloat demo_imports) [[5; 6; 7; 8]] outs ∧
    files (demo_process_file "other/s.wav"
             (demo_process_file "in/s.wav" demo_world2).1).1
    = <["out/s.wav" := WavFile SR (concat outs)]> (files demo_world2).
Proof.
  assert (demo_process_file "in/s.wav" demo_world2
          = ((demo_process_file "in/s.wav" demo_world2).1, Ok tt)) as H1.
  { rewrite (surjective_pairing (demo_process_file "in/s.wav" demo_world2))
      at 1.
    f_equal; vm_compute; reflexivity. }
  assert (demo_process_file "other/s.wav"
            (demo_process_file "in/s.wav" demo_world2).1
          = ((demo_process_file "other/s.wav"
                (demo_process_file "in/s.wav" demo_world2).1).1, Ok tt))
    as H2.
  { rewrite (surjective_pairing (demo_process_file "other/s.wav" _)) at 1.
    f_equal; vm_compute; reflexivity. }
  assert (files (demo_process_file "in/s.wav" demo_world2).1 !! "other/s.wav"
          = Some (WavFile SR [5; 6; 7; 8])) as Hfile
    by (vm_compute; reflexivity).
  split; [reflexivity|]. split; [exact H1|]. split; [exact Hfile|].
  destruct (same_basename_overwrites (Imports0 := demo_imports) "out"
              demo_mean demo_var true 0 (10 # 1) "in/s.wav" "other/s.wav"
              demo_world2 _ _ [5; 6; 7; 8] [5; 6; 7; 8] eq_refl H1 Hfile
              eq_refl H2)
    as (_ & chunks & outs & Hchunks & Houts & Hfiles).
  injection Hchunks as <-.
  exists outs. split; [exact Houts|exact Hfiles].
Defined.

Lemma input_overwritten_in_place_witness :
  no_slash "s.wav" = true ∧
  files demo_world !! os_path_join "in" "s.wav"
    = Some (WavFile SR [1; 2; 3; 4]) ∧
  ∃ outs,
    Forall2 (@chunk_output Z npfloat demo_imports) [[1; 2; 3; 4]] outs ∧
    files (@process_file Z npfloat npfloat_ops demo_imports "in" demo_mean
             demo_var true 0 (10 # 1) "in/s.wav" demo_world).1
    = <["in/s.wav" := WavFile SR (concat outs)]> (files demo_world).
Proof.
  split; [reflexivity|]. split; [reflexivity|].
  assert (@process_file Z npfloat npfloat_ops demo_imports "in" demo_mean
            demo_var true 0 (10 # 1) (os_path_join "in" "s.wav") demo_world
          = ((@process_file Z npfloat npfloat_ops demo_imports "in" demo_mean
                demo_var true 0 (10 # 1) "in/s.wav" demo_world).1, Ok tt))
    as Hrun.
  { rewrite (surjective_pairing (process_file _ _ _ _ _ _ _ _)) at 1.
    f_equal; vm_compute; reflexivity. }
  destruct (input_overwritten_in_place (Imports0 := demo_imports) "in"
              "s.wav" demo_mean demo_var true 0 (10 # 1) demo_world _
              [1; 2; 3; 4] [1; 2; 3; 4] eq_refl eq_refl eq_refl Hrun)
    as (_ & chunks & outs & Hchunks & Houts & Hfiles).
  injection Hchunks as <-.
  exists outs. split; [exact Houts|exact Hfiles].
Defined.

Lemma progress_lines_of_a_file_witness :
  files demo_world !! "in/a.wav" = Some (WavFile SR (replicate 300 7)) ∧
  demo_process_file "in/a.wav" demo_world
    = ((demo_process_file "in/a.wav" demo_world).1, Ok tt) ∧
  ∃ calls,
    trace (demo_process_file "in/a.wav" demo_world).1
      = trace demo_world ++ calls ∧
    omap printed calls
    = ["Processing file: in/a.wav, segment: 1/1.";
       finished_message "in/a.wav"].
Proof.
  assert (demo_process_file "in/a.wav" demo_world
          = ((demo_process_file "in/a.wav" demo_world).1, Ok tt)) as Hrun.
  { rewrite (surjective_pairing (demo_process_file "in/a.wav" demo_world))
      at 1.
    f_equal; vm_compute; reflexivity. }
  split; [reflexivity|]. split; [exact Hrun|].
  destruct (progress_lines_of_a_file (Imports0 := demo_imports) "out"
              demo_mean demo_var true 0 (10 # 1) "in/a.wav" demo_world _
              (replicate 300 7) (replicate 300 7) eq_refl eq_refl Hrun)
    as (total & calls & Hdiv & Htrace & Hprinted).
  injection Hdiv as <-.
  exists calls. split; [exact Htrace|exact Hprinted].
Defined.


Lemma chunk_length_below_window_passes_file_through_witness :
  files demo_world !! "in/a.wav" = Some (WavFile SR (replicate 300 7)) ∧
  1 ≤ chunk_length_of (1 # 9600) SR < WL2 ∧
  ∃ w',
    @process_file Z npfloat npfloat_ops demo_imports "out" demo_mean demo_var
      true 0 (1 # 9600) "in/a.wav" demo_world = (w', Ok tt) ∧
    files w' = <["out/a.wav" := WavFile SR (replicate 300 7)]>
                 (files demo_world) ∧
    omap worker_dir (trace w') = [].
Proof.
  split; [reflexivity|]. split; [split; [discriminate|reflexivity]|].
  destruct (chunk_length_below_window_passes_file_through
              (Imports0 := demo_imports) "out" demo_mean demo_var true 0
              (1 # 9600) "in/a.wav" demo_world (replicate 300 7)
              (replicate 300 7) eq_refl eq_refl ltac:(discriminate)
              ltac:(split; [discriminate|reflexivity]))
    as (w' & total & Hrun & Hdiv & Hfiles & Htrace).
  exists w'. split; [exact Hrun|]. split; [exact Hfiles|].
  rewrite Htrace. injection Hdiv as <-. reflexivity.
Defined.

Lemma nonpositive_chunk_length_raises_witness :
  files demo_world !! "in/a.wav" = Some (WavFile SR (replicate 300 7)) ∧
  chunk_length_of (-1 # 1) SR ≤ 0 ∧
  ∃ w',
    @process_file Z npfloat npfloat_ops demo_imports "out" demo_mean demo_var
      true 0 (-1 # 1) "in/a.wav" demo_world = (w', Raise ValueError) ∧
    files w' = files demo_world.
Proof.
  split; [reflexivity|]. split; [discriminate|].
  destruct (nonpositive_chunk_length_raises (Imports0 := demo_imports) "out"
              demo_mean demo_var true 0 (-1 # 1) "in/a.wav" demo_world
              (replicate 300 7) (replicate 300 7) eq_refl eq_refl
              ltac:(discriminate))
    as (w' & Hrun & _ & Hfiles & _).
  exists w'. split; [exact Hrun|exact Hfiles].
Defined.

Lemma short_file_is_one_chunk_witness :
  [1; 2; 3] ≠ [] ∧
  Z.of_nat (length [1; 2; 3]) ≤ chunk_length_of (10 # 1) SR ∧
  loop_chunks [1; 2; 3] (10 # 1) SR = Ok [[1; 2; 3]].
Proof.
  split; [discriminate|]. split; [discriminate|].
  apply (short_file_is_one_chunk [1; 2; 3] (10 # 1) SR);
    discriminate.
Defined.


Lemma single_row_mask_is_broadcast_witness :
  shape0 (NdArray 1 1 (λ _ _, Finite 1%R)) = 1%nat ∧
  shape1 (NdArray 1 1 (λ _ _, Finite 1%R))
    = shape1 (NdArray 3 1 (λ _ _, Finite 2%R)) ∧
  ∃ masked,
    mask_lps (NdArray 3 1 (λ _ _, Finite 2%R))
      (NdArray 1 1 (λ _ _, Finite 1%R)) = Ok masked ∧
    shape0 masked = 3%nat.
Proof.
  split; [reflexivity|]. split; [reflexivity|].
  destruct (single_row_mask_is_broadcast (NdArray 3 1 (λ _ _, Finite 2%R))
              (NdArray 1 1 (λ _ _, Finite 1%R)) eq_refl eq_refl)
    as (masked & Hm & H0 & _).
  exists masked. split; [exact Hm|exact H0].
Defined.

Lemma worker_arguments_witness :
  demo_chunk_body [] 1 demo_world
    = ((demo_chunk_body [] 1 demo_world).1,
       (demo_chunk_body [] 1 demo_world).2) ∧
  trace (demo_chunk_body [] 1 demo_world).1
    = trace demo_world ++ trace (demo_chunk_body [] 1 demo_world).1 ∧
  ∃ seen,
    EvDecodeModel "0/noisy_normed_lps.scp" "0" 257 true 0 seen
      ∈ trace (demo_chunk_body [] 1 demo_world).1 ∧
    trace (demo_chunk_body [] 1 demo_world).1 !! 0%nat
      = Some (EvMkdtemp "0").
Proof.
  split; [apply surjective_pairing|]. split; [reflexivity|].
  eassert (EvDecodeModel "0/noisy_normed_lps.scp" "0" 257 true 0 _
           ∈ trace (demo_chunk_body [] 1 demo_world).1) as Hin.
  { apply list_elem_of_lookup. exists 5%nat. reflexivity. }
  destruct (worker_arguments (Imports0 := demo_imports) "in/a.wav"
              (replicate 300 7) 9600000 1 demo_mean demo_var true 0 [] 1
              demo_world _ _ _ _ _ _ _ _ _ (surjective_pairing _) eq_refl Hin)
    as (_ & _ & _ & _ & Hfirst & _).
  eexists. split; [exact Hin|exact Hfirst].
Defined.

Lemma unfit_statistics_raise_per_chunk_witness :
  WL2 ≤ Z.of_nat (length (chunk_at (replicate 300 7) 9600000 1)) ∧
  mvn (NdArray (demo_frames 300) NFREQS (λ _ _, Finite 0%R))
    (NdArray 2 5 (λ _ _, Finite 0%R)) demo_var = Raise ValueError ∧
  ∃ w',
    @chunk_body Z npfloat npfloat_ops demo_imports "in/a.wav"
      (replicate 300 7) 9600000 1 (NdArray 2 5 (λ _ _, Finite 0%R)) demo_var
      true 0 [] 1 demo_world = (w', Raise ValueError) ∧
    omap worker_dir (trace w') = [].
Proof.
  split; [discriminate|]. split; [reflexivity|].
  destruct (unfit_statistics_raise_per_chunk (Imports0 := demo_imports)
              "in/a.wav" (replicate 300 7) 9600000 1
              (NdArray 2 5 (λ _ _, Finite 0%R)) demo_var true 0 [] 1
              demo_world
              (NdArray (demo_frames 300) NFREQS (λ _ _, Finite 0%R))
              ValueError ltac:(discriminate) eq_refl eq_refl)
    as (w' & Hrun & Htrace & _).
  exists w'. split; [exact Hrun|]. rewrite Htrace. reflexivity.
Defined.

Lemma accepted_file_is_processed_witness :
  files demo_world !! "in/a.wav" = Some (WavFile SR (replicate 300 7)) ∧
  replicate 300 7 ≠ [] ∧
  1 ≤ chunk_length_of (10 # 1) SR ∧
  ∃ w' outs,
    demo_process_file "in/a.wav" demo_world = (w', Ok tt) ∧
    files w' = <["out/a.wav" := WavFile SR (concat outs)]> (files demo_world).
Proof.
  split; [reflexivity|]. split; [discriminate|]. split; [discriminate|].
  destruct (accepted_file_is_processed (Imports0 := demo_imports) "out"
              demo_mean demo_var true 0 (10 # 1) "in/a.wav" demo_world
              (replicate 300 7) (replicate 300 7) eq_refl eq_refl
              ltac:(discriminate) ltac:(discriminate))
    as (w' & chunks & outs & Hrun & _ & _ & Hfiles).
  { intros i Hi Hlong.
    destruct (decide (i = 1)) as [->|Hne].
    - eexists. vm_compute. reflexivity.
    - exfalso. rewrite length_chunk_at in Hlong by (try discriminate; lia).
      change (chunk_length_of (10 # 1) SR) with 9600000 in Hlong.
      change WL2 with 256 in Hlong.
      rewrite length_replicate in Hlong. lia. }
  exists w', outs. split; [exact Hrun|exact Hfiles].
Defined.

Lemma only_last_chunk_can_pass_through_witness :
  WL2 ≤ chunk_length_of (1 # 3750) SR ∧
  files demo_world !! "in/a.wav" = Some (WavFile SR (replicate 300 7)) ∧
  two_chunk_process_file "in/a.wav" demo_world
    = ((two_chunk_process_file "in/a.wav" demo_world).1, Ok tt) ∧
  ∃ outs,
    files (two_chunk_process_file "in/a.wav" demo_world).1 !! "out/a.wav"
      = Some (WavFile SR (concat outs)) ∧
    Z.of_nat (length outs) = 2 ∧
    ∃ masked_lps out,
      outs !! 0%nat = Some out ∧
      @logspec2wav Z npfloat demo_imports masked_lps
        (chunk_at (replicate 300 7) (chunk_length_of (1 # 3750) SR) 1)
      = Ok out.
Proof.
  assert (two_chunk_process_file "in/a.wav" demo_world
          = ((two_chunk_process_file "in/a.wav" demo_world).1, Ok tt))
    as Hrun.
  { rewrite (surjective_pairing
               (two_chunk_process_file "in/a.wav" demo_world)) at 1.
    f_equal; vm_compute; reflexivity. }
  split; [discriminate|]. split; [reflexivity|]. split; [exact Hrun|].
  destruct (only_last_chunk_can_pass_through (Imports0 := demo_imports) "out"
              demo_mean demo_var true 0 (1 # 3750) "in/a.wav" demo_world _
              (replicate 300 7) (replicate 300 7) ltac:(discriminate) eq_refl
              eq_refl Hrun)
    as (total & outs & Hdiv & Hfile & Hlen & Hbefore).
  vm_compute in Hdiv. injection Hdiv as <-.
  destruct (Hbefore 1 ltac:(lia)) as (masked_lps & out & Hout & Hsyn).
  exists outs. split; [exact Hfile|]. split; [exact Hlen|].
  exists masked_lps, out. split; [exact Hout|exact Hsyn].
Defined.
